(** * pipx: resolution of the Python interpreter ([src/pipx/interpreter.py])

    A shallow embedding of [pipx.interpreter] and the properties of its
    interpreter resolution.

    The module talks to the outside world only through [shutil.which],
    [os.path.islink], [os.path.realpath(..., strict=True)],
    [subprocess.run], [logging.warn], the importability of [venv],
    [sys.executable], [pipx.constants.WINDOWS] and [os.environ].  These are
    gathered in the record [World]; the functions of the module are
    translated one to one over it, in a state-and-exception monad whose state
    is the chronological list of the subprocess invocations and log records
    made so far.  The world stays as it is during a call: the processes that
    are run change neither the search path nor the links. *)

From Stdlib Require Import String Ascii List Bool ZArith Lia.
Import ListNotations.
Local Open Scope list_scope.
Local Open Scope string_scope.

(** ** Python [str] operations used by the module

    A [str] (and the [bytes] of a captured stdout) is a Rocq [string]; a
    character is read as the code point of its [ascii] value. *)
Module PyStr.

(** Truth value of a [str]: the empty string is false. *)
Definition truthy (s : string) : bool :=
  match s with
  | EmptyString => false
  | String _ _ => true
  end.

(** [s.startswith(p)] *)
Fixpoint startswith (s p : string) : bool :=
  match p, s with
  | EmptyString, _ => true
  | String _ _, EmptyString => false
  | String a p', String b s' => Ascii.eqb a b && startswith s' p'
  end.

(** [sub in s] *)
Fixpoint contains (sub s : string) : bool :=
  startswith s sub ||
  match s with
  | EmptyString => false
  | String _ s' => contains sub s'
  end.

(** [c in chars] for a single character [c] *)
Fixpoint mem (c : ascii) (chars : string) : bool :=
  match chars with
  | EmptyString => false
  | String d chars' => Ascii.eqb c d || mem c chars'
  end.

(** [s.lstrip(chars)]: drops every leading character that belongs to the
    set [chars]. *)
Fixpoint lstrip_chars (s chars : string) : string :=
  match s with
  | EmptyString => EmptyString
  | String c s' => if mem c chars then lstrip_chars s' chars else s
  end.

(** [s.rstrip(chars)] *)
Fixpoint rstrip_chars (s chars : string) : string :=
  match s with
  | EmptyString => EmptyString
  | String c s' =>
      match rstrip_chars s' chars with
      | EmptyString => if mem c chars then EmptyString else String c EmptyString
      | r => String c r
      end
  end.

(** Whitespace of [str.isspace] among the code points below 256:
    TAB, LF, VT, FF, CR, FS, GS, RS, US, SPACE, NEL, NBSP. *)
Definition str_whitespace : string :=
  String (ascii_of_nat 9) (String (ascii_of_nat 10) (String (ascii_of_nat 11)
  (String (ascii_of_nat 12) (String (ascii_of_nat 13) (String (ascii_of_nat 28)
  (String (ascii_of_nat 29) (String (ascii_of_nat 30) (String (ascii_of_nat 31)
  (String (ascii_of_nat 32) (String (ascii_of_nat 133) (String (ascii_of_nat 160)
  EmptyString))))))))))).

(** Whitespace of [bytes.strip]: [b' \t\n\r\x0b\f']. *)
Definition bytes_whitespace : string :=
  String (ascii_of_nat 32) (String (ascii_of_nat 9) (String (ascii_of_nat 10)
  (String (ascii_of_nat 13) (String (ascii_of_nat 11) (String (ascii_of_nat 12)
  EmptyString))))).

(** [s.strip()] on a [str] *)
Definition strip (s : string) : string :=
  rstrip_chars (lstrip_chars s str_whitespace) str_whitespace.

(** [b.strip()] on a [bytes] *)
Definition bytes_strip (s : string) : string :=
  rstrip_chars (lstrip_chars s bytes_whitespace) bytes_whitespace.

End PyStr.

(** ** Exceptions *)

(** The attributes of an [InterpreterResolutionError].  [message] and
    [wrap_message] are the two arguments handed to [PipxError.__init__]
    (the base class lives in [pipx.util]). *)
Record ResolutionError : Type := mkResolutionError {
  source : string;
  version : string;
  message : string;
  wrap_message : bool
}.

Definition path_hint : string :=
  "The provided version looks like a path, but no executable was found there.".

Definition launcher_hint : string :=
  "The provided version looks like a version for Python Launcher, "
  ++ "but `py` was not found on PATH.".

(** [InterpreterResolutionError.__init__] (lines 24-44), with the default
    [wrap_message=True] that every call site of the module uses. *)
Definition InterpreterResolutionError (source version : string) : ResolutionError :=
  let potentially_path := PyStr.contains "/" version in
  let potentially_pylauncher :=
    negb (PyStr.contains "python" version) && negb potentially_path in
  let message :=
    "No executable for the provided Python version '" ++ version
    ++ "' found in " ++ source ++ "."
    ++ " Please make sure the provided version is " in
  let message :=
    if String.eqb source "py launcher"
    then message ++ "listed when running `py --list`."
    else message in
  let message :=
    if String.eqb source "PATH" then
      let message := message ++ "on your PATH or the file path is valid. " in
      let message :=
        if potentially_path then message ++ path_hint else message in
      if potentially_pylauncher then message ++ launcher_hint else message
    else message in
  mkResolutionError source version message true.

(** The exceptions that can leave the functions of the module. *)
Inductive exn : Type :=
| ResolutionFailure (e : ResolutionError)
    (** [InterpreterResolutionError] *)
| PipxError (msg : string)
    (** a plain [PipxError] *)
| CalledProcessError (returncode : Z) (cmd : list string)
    (** [subprocess.CalledProcessError] *)
| FileNotFoundError
    (** [OSError] with [ENOENT] *)
| OtherOSError
    (** any other [OSError]: [PermissionError], [NotADirectoryError],
        a symlink loop, an exec format error, ... *).

(** The [OSError]s of the operating system, as the oracles report them. *)
Inductive oserror : Type := ENOENT | EOTHER.

Definition exn_of_oserror (e : oserror) : exn :=
  match e with
  | ENOENT => FileNotFoundError
  | EOTHER => OtherOSError
  end.

(** ** The outside world *)

Record World : Type := mkWorld {
  (** [shutil.which(cmd)]: [None] when nothing is found *)
  which : string -> option string;
  (** [os.path.islink(path)] *)
  islink : string -> bool;
  (** [os.path.realpath(path, strict=True)]: the canonical path, or the
      [OSError] raised when it cannot be resolved *)
  realpath_strict : string -> oserror + string;
  (** what running [argv] does: the [OSError] of a failed spawn, or the
      return code and the captured standard output of the process *)
  spawn : list string -> oserror + (Z * string);
  (** whether [import venv] succeeds *)
  venv_importable : bool;
  (** [sys.executable] *)
  sys_executable : string;
  (** [pipx.constants.WINDOWS] *)
  WINDOWS : bool;
  (** [os.environ.get(name)] *)
  environ_get : string -> option string
}.

(** ** Effects: a trace of events and exceptions *)

Inductive event : Type :=
| Run (argv : list string)   (** a call of [subprocess.run] *)
| Warn (msg : string)        (** a record logged by [logging.warn] *).

Definition trace := list event.

(** A computation reads the trace so far and gives back an exception or a
    value together with the extended trace. *)
Definition M (A : Type) : Type := trace -> (exn + A) * trace.

Definition ret {A} (a : A) : M A := fun t => (inr a, t).

Definition raise {A} (e : exn) : M A := fun t => (inl e, t).

Definition bind {A B} (m : M A) (k : A -> M B) : M B :=
  fun t =>
    match m t with
    | (inl e, t') => (inl e, t')
    | (inr a, t') => k a t'
    end.

Definition emit (ev : event) : M unit := fun t => (inr tt, (t ++ [ev])%list).

(** [try: m  except <handled> as e: h e] *)
Definition try_except {A} (m : M A) (handled : exn -> bool) (h : exn -> M A) : M A :=
  fun t =>
    match m t with
    | (inl e, t') => if handled e then h e t' else (inl e, t')
    | (inr a, t') => (inr a, t')
    end.

Declare Scope py_scope.
Delimit Scope py_scope with py.
Notation "x <- m ;; k" := (bind m (fun x => k))
  (at level 61, m at next level, right associativity) : py_scope.
Notation "m ;;; k" := (bind m (fun _ => k))
  (at level 61, right associativity) : py_scope.
Local Open Scope py_scope.

(** The subprocess invocations recorded in a trace. *)
Fixpoint invocations (t : trace) : list (list string) :=
  match t with
  | [] => []
  | Run argv :: t' => argv :: invocations t'
  | Warn _ :: t' => invocations t'
  end.


(** Truth value of an [Optional[str]]. *)
Definition truthy (o : option string) : bool :=
  match o with
  | None => false
  | Some s => PyStr.truthy s
  end.

(** ** The library calls, over a world *)

(** What [subprocess.run] returns: a [CompletedProcess]. *)
Record CompletedProcess : Type := mkCompletedProcess {
  returncode : Z;
  stdout : string
}.

Section Interpreter.

Variable w : World.

(** [shutil.which(cmd)] *)
Definition shutil_which (cmd : string) : M (option string) :=
  ret (which w cmd).

(** [os.path.islink(path)] *)
Definition os_path_islink (path : string) : M bool :=
  ret (islink w path).

(** [os.path.realpath(path, strict=True)]: raises the [OSError] of a path
    that cannot be resolved. *)
Definition os_path_realpath_strict (path : string) : M string :=
  match realpath_strict w path with
  | inl e => raise (exn_of_oserror e)
  | inr p => ret p
  end.

(** [subprocess.run(argv, ..., check=check)] with the standard output
    captured.  The call is recorded; a failed spawn raises its [OSError];
    with [check=True] a return code other than zero raises
    [CalledProcessError].  What [subprocess.run] raises besides these (a
    [ValueError] for an [argv] with a NUL character, a [UnicodeDecodeError]
    for output that [text=True] cannot decode) is not modelled; the module
    handles neither. *)
Definition subprocess_run (argv : list string) (check : bool) : M CompletedProcess :=
  emit (Run argv) ;;;
  match spawn w argv with
  | inl e => raise (exn_of_oserror e)
  | inr (rc, out) =>
      if check && negb (Z.eqb rc 0)
      then raise (CalledProcessError rc argv)
      else ret (mkCompletedProcess rc out)
  end.

(** [logging.warn(msg)] *)
Definition logging_warn (msg : string) : M unit := emit (Warn msg).

(** The script every probed interpreter is asked to run. *)
Definition self_report : string := "import sys; print(sys.executable)".

(** The handler [except (subprocess.CalledProcessError, FileNotFoundError)]. *)
Definition called_process_or_not_found (e : exn) : bool :=
  match e with
  | CalledProcessError _ _ => true
  | FileNotFoundError => true
  | _ => false
  end.

(** ** The functions of [pipx.interpreter] *)

(** [has_venv] (lines 14-20) *)
Definition has_venv : M bool := ret (venv_importable w).

(** [find_py_launcher_python] (lines 82-97) *)
Definition find_py_launcher_python (python_version : option string)
  : M (option string) :=
  py <- shutil_which "py" ;;
  match py, python_version with
  | Some py_path, Some version =>
      if PyStr.truthy py_path && PyStr.truthy version then
        let python_semver := version in
        python_semver <-
          (if PyStr.startswith version "python" then
             logging_warn
               ("Removing `python` from the start of the version, "
                ++ "as pylauncher just expects the semantic version") ;;;
             ret (PyStr.lstrip_chars python_semver "python")
           else ret python_semver) ;;
        proc <- subprocess_run
                  [py_path; "-" ++ python_semver; "-c"; self_report] true ;;
        ret (Some (PyStr.strip (stdout proc)))
      else ret py
  | _, _ => ret py
  end.

(** The expression of lines 57 and 69:
    [os.path.realpath(p, strict=True) if not os.path.islink(p) else p] *)
Definition realpath_unless_islink (p : string) : M string :=
  is_link <- os_path_islink p ;;
  if negb is_link then os_path_realpath_strict p else ret p.

(** [find_python_interpreter] (lines 47-69) *)
Definition find_python_interpreter (python_version : string) : M string :=
  py_executable <-
    try_except
      (find_py_launcher_python (Some python_version))
      called_process_or_not_found
      (fun _ => raise (ResolutionFailure
                         (InterpreterResolutionError "py launcher" python_version))) ;;
  py_executable <-
    (if negb (truthy py_executable) then
       path_python <- shutil_which python_version ;;
       match path_python with
       | Some path_python =>
           if negb (PyStr.truthy path_python) then
             raise (ResolutionFailure
                      (InterpreterResolutionError "PATH" python_version))
           else
             path_python <- realpath_unless_islink path_python ;;
             try_except
               (proc <- subprocess_run [path_python; "-c"; self_report] true ;;
                ret (PyStr.strip (stdout proc)))
               called_process_or_not_found
               (fun _ => raise (ResolutionFailure
                                  (InterpreterResolutionError "PATH" python_version)))
       | None =>
           raise (ResolutionFailure
                    (InterpreterResolutionError "PATH" python_version))
       end
     else
       (* a true [Optional[str]] is a [str] *)
       match py_executable with
       | Some p => ret p
       | None => ret EmptyString
       end) ;;
  realpath_unless_islink py_executable.

(** [_find_default_windows_python] (lines 100-122) *)
Definition _find_default_windows_python : M string :=
  venv <- has_venv ;;
  if venv then ret (sys_executable w)
  else
    python <- find_py_launcher_python None ;;
    python <- (if truthy python then ret python else shutil_which "python") ;;
    match python with
    | None => raise (PipxError "No suitable Python found")
    | Some python =>
        if negb (PyStr.contains "WindowsApps" python) then ret python
        else
          proc <- subprocess_run [python; "-V"] false ;;
          if negb (Z.eqb (returncode proc) 0) then
            raise (PipxError "No suitable Python found")
          else if negb (PyStr.truthy (PyStr.bytes_strip (stdout proc))) then
            raise (PipxError "No suitable Python found")
          else ret python
    end.

(** [_get_sys_executable] (lines 125-129) *)
Definition _get_sys_executable : M string :=
  if WINDOWS w then _find_default_windows_python else ret (sys_executable w).

(** [_get_absolute_python_interpreter] (lines 132-136) *)
Definition _get_absolute_python_interpreter (env_python : string) : M string :=
  which_python <- shutil_which env_python ;;
  if negb (truthy which_python) then
    raise (PipxError ("Default python interpreter '" ++ env_python ++ "' is invalid."))
  else
    (* a true [Optional[str]] is a [str] *)
    match which_python with
    | Some p => ret p
    | None => ret EmptyString
    end.

(** Module initialisation (lines 139-144): the value bound to
    [DEFAULT_PYTHON]. *)
Definition env_default_python : option string :=
  environ_get w "PIPX_DEFAULT_PYTHON".

Definition DEFAULT_PYTHON : M string :=
  if negb (truthy env_default_python) then _get_sys_executable
  else
    match env_default_python with
    | Some env_python => _get_absolute_python_interpreter env_python
    | None => _get_sys_executable
    end.

End Interpreter.

(** ** Observations on a run, as decidable tests *)

(** The launcher probe finds nothing at [python_version]: it raises, or it
    returns a value that is false ([None] or the empty string). *)
Definition launcher_finds_nothing (w : World) (python_version : string) (t : trace)
  : bool :=
  match find_py_launcher_python w (Some python_version) t with
  | (inl _, _) => true
  | (inr py, _) => negb (truthy py)
  end.

(** The launcher is on the search path and its invocation fails with one of
    the two errors the module handles: a return code other than zero, or a
    launcher file that cannot be executed because it is not found. *)
Definition launcher_invocation_fails (w : World) (python_version : string) (t : trace)
  : bool :=
  truthy (which w "py") &&
  match find_py_launcher_python w (Some python_version) t with
  | (inl e, _) => called_process_or_not_found e
  | (inr _, _) => false
  end.

(** A typed failure: an [InterpreterResolutionError]. *)
Definition is_resolution_failure (e : exn) : bool :=
  match e with
  | ResolutionFailure _ => true
  | _ => false
  end.

(** ** The candidate located by the probes

    [located w v t c t'] holds when, started on the trace [t], the probes of
    [find_python_interpreter] locate the candidate [c] for the version [v]
    and leave the trace [t']: either the launcher probe returns the
    non-empty path [c], or it returns nothing, the search path holds [p]
    under the name [v], and the command found there, asked for its
    [sys.executable], exits with code 0 and prints [c]. *)
Inductive located (w : World) (v : string) (t : trace) : string -> trace -> Prop :=
| located_by_launcher (c : string) (t1 : trace) :
    find_py_launcher_python w (Some v) t = (inr (Some c), t1) ->
    PyStr.truthy c = true ->
    located w v t c t1
| located_on_path (py : option string) (t1 : trace) (p p' out : string) :
    find_py_launcher_python w (Some v) t = (inr py, t1) ->
    truthy py = false ->
    which w v = Some p ->
    PyStr.truthy p = true ->
    realpath_unless_islink w p t1 = (inr p', t1) ->
    spawn w [p'; "-c"; self_report] = inr (0%Z, out) ->
    located w v t (PyStr.strip out) (t1 ++ [Run [p'; "-c"; self_report]])%list.

(** The world [w] with another state of the filesystem links. *)
Definition with_links (w : World)
    (links : string -> bool) (canonical : string -> oserror + string) : World :=
  {| which := which w;
     islink := links;
     realpath_strict := canonical;
     spawn := spawn w;
     venv_importable := venv_importable w;
     sys_executable := sys_executable w;
     WINDOWS := WINDOWS w;
     environ_get := environ_get w |}.

(** ** The fixed parts of the message of an [InterpreterResolutionError] *)

Definition message_head : string :=
  "No executable for the provided Python version ".

Definition path_tail : string :=
  " found in PATH. Please make sure the provided version is "
  ++ "on your PATH or the file path is valid. ".

Definition launcher_tail : string :=
  " found in py launcher. Please make sure the provided version is "
  ++ "listed when running `py --list`.".

(** The character that encloses the version in the message. *)
Definition quote : ascii := "'"%char.

(** The record that [find_py_launcher_python] logs at line 87. *)
Definition launcher_warning : string :=
  "Removing `python` from the start of the version, "
  ++ "as pylauncher just expects the semantic version".

(** The version flag that [find_py_launcher_python] hands to the launcher
    (lines 85-90 and 92). *)
Definition version_flag (version : string) : string :=
  "-" ++ (if PyStr.startswith version "python"
          then PyStr.lstrip_chars version "python"
          else version).

(** The candidate of the default resolver on Windows (line 103):
    [find_py_launcher_python() or shutil.which("python")]. *)
Definition default_windows_candidate (w : World) : option string :=
  if truthy (which w "py") then which w "py" else which w "python".

(** ** Concrete worlds *)

Module Worlds.

Fixpoint lookup {A : Type} (k : string) (tbl : list (string * A)) : option A :=
  match tbl with
  | [] => None
  | (k', v) :: tbl' => if String.eqb k k' then Some v else lookup k tbl'
  end.

Fixpoint argv_eqb (a b : list string) : bool :=
  match a, b with
  | [], [] => true
  | x :: a', y :: b' => String.eqb x y && argv_eqb a' b'
  | _, _ => false
  end.

Fixpoint lookup_argv {A : Type} (k : list string) (tbl : list (list string * A))
  : option A :=
  match tbl with
  | [] => None
  | (k', v) :: tbl' => if argv_eqb k k' then Some v else lookup_argv k tbl'
  end.

(** A world given by finite tables: the search path, the symlinks, the
    canonical paths of the files that exist, and the processes that can be
    run.  A path outside the third table does not exist; an [argv] outside
    the last one cannot be spawned. *)
Definition table_world
    (on_path : list (string * string))
    (links : list string)
    (canonical : list (string * string))
    (processes : list (list string * (Z * string)))
    (venv windows : bool) (executable : string)
    (environ : list (string * string)) : World :=
  {| which := fun cmd => lookup cmd on_path;
     islink := fun p => existsb (String.eqb p) links;
     realpath_strict := fun p =>
       match lookup p canonical with
       | Some q => inr q
       | None => inl ENOENT
       end;
     spawn := fun argv =>
       match lookup_argv argv processes with
       | Some r => inr r
       | None => inl ENOENT
       end;
     venv_importable := venv;
     sys_executable := executable;
     WINDOWS := windows;
     environ_get := fun name => lookup name environ |}.

(** The newline that [print] ends its output with. *)
Definition nl : string := String (ascii_of_nat 10) EmptyString.

(** Nothing named [py] and nothing named like the version on the path. *)
Definition bare_unix : World :=
  table_world [] [] [("/usr/bin/python3.11", "/usr/bin/python3.11")] []
    true false "/usr/bin/python3.11" [].

(** A launcher that knows no version 9.9 and exits with code 103. *)
Definition launcher_without_version : World :=
  table_world
    [("py", "C:\Windows\py.exe")] []
    [("C:\Windows\py.exe", "C:\Windows\py.exe")]
    [(["C:\Windows\py.exe"; "-9.9"; "-c"; self_report], (103%Z, ""))]
    true true "C:\pipx\python.exe" [].

(** [/usr/bin/python3] is a symlink to [python3.11]; run through the
    symlink, the interpreter reports the symlink as its executable. *)
Definition symlinked_python : World :=
  table_world
    [("python3", "/usr/bin/python3")]
    ["/usr/bin/python3"]
    [("/usr/bin/python3", "/usr/bin/python3.11");
     ("/usr/bin/python3.11", "/usr/bin/python3.11")]
    [(["/usr/bin/python3"; "-c"; self_report], (0%Z, "/usr/bin/python3" ++ nl))]
    true false "/usr/bin/python3.11" [].

(** [/opt/py] is a symlinked directory: [/opt/py/bin/python3.11] is a
    regular file whose canonical path is under [/opt/python-3.11]. *)
Definition regular_python : World :=
  table_world
    [("python3.11", "/opt/py/bin/python3.11")]
    []
    [("/opt/py/bin/python3.11", "/opt/python-3.11/bin/python3.11");
     ("/opt/python-3.11/bin/python3.11", "/opt/python-3.11/bin/python3.11")]
    [(["/opt/python-3.11/bin/python3.11"; "-c"; self_report],
      (0%Z, "/opt/py/bin/python3.11" ++ nl))]
    true false "/opt/py/bin/python3.11"
    [("PIPX_DEFAULT_PYTHON", "python3.11")].

(** [python3.11] on the path is a wrapper that reports an interpreter which
    is no longer installed. *)
Definition stale_wrapper : World :=
  table_world
    [("python3.11", "/home/u/bin/python3.11")]
    []
    [("/home/u/bin/python3.11", "/home/u/bin/python3.11")]
    [(["/home/u/bin/python3.11"; "-c"; self_report],
      (0%Z, "/opt/removed/bin/python3.11" ++ nl))]
    true false "/usr/bin/python3" [].

(** [python3.11] is found on the search path and is gone when its canonical
    path is asked for. *)
Definition vanished_python : World :=
  table_world
    [("python3.11", "/tmp/env/bin/python3.11")]
    [] [] []
    true false "/usr/bin/python3" [].

(** Windows without [venv] and without launcher; [python] on the path is
    the stub of the application store, which exits with code 9009. *)
Definition store_stub : World :=
  table_world
    [("python", "C:\Users\u\AppData\Local\Microsoft\WindowsApps\python.exe")]
    [] []
    [(["C:\Users\u\AppData\Local\Microsoft\WindowsApps\python.exe"; "-V"],
      (9009%Z, ""))]
    false true "C:\pipx\python.exe" [].

(** The same, with a stub that exits with code 0 and prints a blank line. *)
Definition silent_store_stub : World :=
  table_world
    [("python", "C:\Users\u\AppData\Local\Microsoft\WindowsApps\python.exe")]
    [] []
    [(["C:\Users\u\AppData\Local\Microsoft\WindowsApps\python.exe"; "-V"],
      (0%Z, " " ++ nl))]
    false true "C:\pipx\python.exe" [].

(** Windows without [venv], with the launcher on the path.  The launcher
    knows the tags [3.11] and [nightly] and exits with code 103 on any
    other. *)
Definition embedded_with_launcher : World :=
  table_world
    [("py", "C:\Windows\py.exe"); ("python", "C:\Python311\python.exe")]
    []
    [("C:\Windows\py.exe", "C:\Windows\py.exe");
     ("C:\Python311\python.exe", "C:\Python311\python.exe");
     ("C:\Python-nightly\python.exe", "C:\Python-nightly\python.exe")]
    [(["C:\Windows\py.exe"; "-nightly"; "-c"; self_report],
      (0%Z, "C:\Python-nightly\python.exe" ++ nl));
     (["C:\Windows\py.exe"; "-ightly"; "-c"; self_report], (103%Z, ""));
     (["C:\Windows\py.exe"; "-3.11"; "-c"; self_report],
      (0%Z, "C:\Python311\python.exe" ++ nl))]
    false true "C:\pipx\python.exe" [].

(** The launcher exits with code 0 and prints a blank line for the tag
    [3.11]; nothing on the search path is named [3.11]. *)
Definition blank_launcher : World :=
  table_world
    [("py", "C:\Windows\py.exe")] []
    [("C:\Windows\py.exe", "C:\Windows\py.exe")]
    [(["C:\Windows\py.exe"; "-3.11"; "-c"; self_report], (0%Z, nl))]
    true true "C:\pipx\python.exe" [].

(** [python3.11] on the path is a wrapper that exits with code 0 and prints
    nothing; the canonical path of the empty string is the working
    directory [/home/u]. *)
Definition blank_wrapper : World :=
  table_world
    [("python3.11", "/home/u/bin/python3.11")]
    []
    [("/home/u/bin/python3.11", "/home/u/bin/python3.11"); ("", "/home/u")]
    [(["/home/u/bin/python3.11"; "-c"; self_report], (0%Z, ""))]
    true false "/usr/bin/python3" [].

(** Windows without [venv] and without launcher; [python] on the path is
    the interpreter of the application store, which answers [-V]. *)
Definition store_python : World :=
  table_world
    [("python", "C:\Users\u\AppData\Local\Microsoft\WindowsApps\python.exe")]
    [] []
    [(["C:\Users\u\AppData\Local\Microsoft\WindowsApps\python.exe"; "-V"],
      (0%Z, "Python 3.11.4" ++ nl))]
    false true "C:\pipx\python.exe" [].

(** Windows without [venv], without launcher and without [python]. *)
Definition bare_windows : World :=
  table_world [] [] [] [] false true "C:\pipx\python.exe" [].

(** A file named [py] is on the search path and cannot be executed: every
    spawn fails with an [OSError] that is not [FileNotFoundError] (an exec
    format error, a permission error). *)
Definition unrunnable_launcher : World :=
  {| which := fun cmd => lookup cmd [("py", "C:\Windows\py.exe")];
     islink := fun _ => false;
     realpath_strict := fun p => inr p;
     spawn := fun _ => inl EOTHER;
     venv_importable := true;
     sys_executable := "C:\pipx\python.exe";
     WINDOWS := true;
     environ_get := fun _ => None |}.

(** [python3.11] is found on the search path and cannot be executed. *)
Definition unrunnable_python : World :=
  {| which := fun cmd => lookup cmd [("python3.11", "/home/u/bin/python3.11")];
     islink := fun _ => false;
     realpath_strict := fun p => inr p;
     spawn := fun _ => inl EOTHER;
     venv_importable := true;
     sys_executable := "/usr/bin/python3";
     WINDOWS := false;
     environ_get := fun _ => None |}.

(** [PIPX_DEFAULT_PYTHON] names a path that does not exist. *)
Definition bad_override : World :=
  table_world [] [] [] [] true false "/usr/bin/python3"
    [("PIPX_DEFAULT_PYTHON", "/bad/path")].

End Worlds.

(** * Properties *)

(** ** The monad and the library calls *)

Lemma bind_ret {A B} (a : A) (k : A -> M B) (t : trace) :
  bind (ret a) k t = k a t.
Proof. reflexivity. Qed.

Lemma bind_raise {A B} (e : exn) (k : A -> M B) (t : trace) :
  bind (raise e) k t = (inl e, t).
Proof. reflexivity. Qed.

Lemma realpath_unless_islink_link (w : World) (p : string) (t : trace) :
  islink w p = true -> realpath_unless_islink w p t = (inr p, t).
Proof.
  intros Hl. unfold realpath_unless_islink, os_path_islink, bind, ret.
  now rewrite Hl.
Qed.

Lemma realpath_unless_islink_file (w : World) (p : string) (t : trace) :
  islink w p = false ->
  realpath_unless_islink w p t =
    match realpath_strict w p with
    | inl e => (inl (exn_of_oserror e), t)
    | inr q => (inr q, t)
    end.
Proof.
  intros Hl.
  unfold realpath_unless_islink, os_path_islink, os_path_realpath_strict, bind, ret.
  rewrite Hl. simpl. now destruct (realpath_strict w p).
Qed.

(** The canonicalization step makes no subprocess call and logs nothing. *)
Lemma realpath_unless_islink_trace (w : World) (p : string) (t t' : trace) r :
  realpath_unless_islink w p t = (r, t') -> t' = t.
Proof.
  destruct (islink w p) eqn:Hl.
  - rewrite realpath_unless_islink_link by assumption. congruence.
  - rewrite realpath_unless_islink_file by assumption.
    destruct (realpath_strict w p); congruence.
Qed.

(** Without a launcher on the search path the launcher probe returns
    [None] and does nothing else. *)
Lemma find_py_launcher_python_absent (w : World) (o : option string) (t : trace) :
  which w "py" = None -> find_py_launcher_python w o t = (inr None, t).
Proof.
  intros Hpy. unfold find_py_launcher_python, shutil_which, bind, ret.
  now rewrite Hpy.
Qed.

(** The search-path probe of [find_python_interpreter] when nothing is
    found: the failure raised at line 55. *)
Lemma find_python_interpreter_cases (w : World) (v : string) (t : trace) :
  which w v = None ->
  find_python_interpreter w v t =
    match find_py_launcher_python w (Some v) t with
    | (inl e, t') =>
        if called_process_or_not_found e
        then (inl (ResolutionFailure (InterpreterResolutionError "py launcher" v)), t')
        else (inl e, t')
    | (inr py, t') =>
        if truthy py
        then realpath_unless_islink w
               (match py with Some p => p | None => EmptyString end) t'
        else (inl (ResolutionFailure (InterpreterResolutionError "PATH" v)), t')
    end.
Proof.
  intros Hv. unfold find_python_interpreter, bind, try_except.
  destruct (find_py_launcher_python w (Some v) t) as [[e | py] t'].
  - destruct (called_process_or_not_found e); reflexivity.
  - destruct (truthy py) eqn:Hpy; simpl.
    + destruct py; reflexivity.
    + unfold shutil_which, ret, raise. rewrite Hv. reflexivity.
Qed.

Lemma invocations_app (a b : trace) :
  invocations (a ++ b)%list = (invocations a ++ invocations b)%list.
Proof.
  induction a as [| [argv | msg] a IH]; simpl; [reflexivity | | assumption].
  now rewrite IH.
Qed.


(** The launcher probe with a launcher on the path and a version that is
    not empty: one run of the launcher, after a warning when the version
    starts with "python". *)
Lemma find_py_launcher_python_runs
    (w : World) (py v : string) (t : trace) :
  which w "py" = Some py ->
  PyStr.truthy py = true ->
  PyStr.truthy v = true ->
  find_py_launcher_python w (Some v) t =
    let argv := [py; version_flag v; "-c"; self_report] in
    let t' := (t ++ (if PyStr.startswith v "python"
                     then [Warn launcher_warning] else [])
                 ++ [Run argv])%list in
    match spawn w argv with
    | inl e => (inl (exn_of_oserror e), t')
    | inr (rc, out) =>
        if Z.eqb rc 0
        then (inr (Some (PyStr.strip out)), t')
        else (inl (CalledProcessError rc argv), t')
    end.
Proof.
  intros Hpy Htrue Hv.
  unfold find_py_launcher_python, shutil_which, bind, ret at 1.
  rewrite Hpy, Htrue, Hv. cbn [andb]. unfold version_flag.
  destruct (PyStr.startswith v "python");
    unfold logging_warn, subprocess_run, emit, bind, raise, ret;
    cbn [app]; rewrite <- ?app_assoc; cbn [app];
    (destruct (spawn w _) as [oe | [rc out]]; [reflexivity |]);
    destruct (Z.eqb rc 0); reflexivity.
Qed.

(** The launcher probe without a launcher, without a version or with the
    empty version: the value of [shutil.which("py")], and nothing run. *)
Lemma find_py_launcher_python_skips
    (w : World) (o : option string) (t : trace) :
  truthy (which w "py") && truthy o = false ->
  find_py_launcher_python w o t = (inr (which w "py"), t).
Proof.
  intros Hguard.
  unfold find_py_launcher_python, shutil_which, bind, ret at 1.
  destruct (which w "py") as [py |]; [| reflexivity].
  destruct o as [v |]; [| reflexivity].
  simpl in Hguard. now rewrite Hguard.
Qed.

(** ** C1 *)

(** C1, as the code has it.  When the launcher probe finds nothing and the
    search path holds nothing named like the version,
    [find_python_interpreter] raises an [InterpreterResolutionError] with
    source "PATH" when there is no launcher on the search path, and one with
    source "py launcher" when the launcher is there and its invocation fails
    with a return code other than zero or with file not found.  When the
    invocation fails with another [OSError], that [OSError] is what the
    caller gets.  No path, empty or not, is ever returned. *)
Theorem find_python_interpreter_not_found (w : World) (v : string) (t : trace) :
  launcher_finds_nothing w v t = true ->
  which w v = None ->
  (which w "py" = None ->
     find_python_interpreter w v t =
       (inl (ResolutionFailure (InterpreterResolutionError "PATH" v)), t))
  /\ (launcher_invocation_fails w v t = true ->
       exists t',
         find_python_interpreter w v t =
           (inl (ResolutionFailure (InterpreterResolutionError "py launcher" v)), t'))
  /\ (forall py,
        which w "py" = Some py ->
        PyStr.truthy py = true ->
        PyStr.truthy v = true ->
        spawn w [py; version_flag v; "-c"; self_report] = inl EOTHER ->
        exists t', find_python_interpreter w v t = (inl OtherOSError, t'))
  /\ (forall p t', find_python_interpreter w v t <> (inr p, t')).
Proof.
  intros Hnothing Hv.
  rewrite (find_python_interpreter_cases w v t Hv).
  unfold launcher_finds_nothing, launcher_invocation_fails in *.
  repeat split.
  - intros Hpy. rewrite find_py_launcher_python_absent by assumption. reflexivity.
  - intros Hfails. apply andb_prop in Hfails. destruct Hfails as [_ Hfails].
    destruct (find_py_launcher_python w (Some v) t) as [[e | py] t1].
    + rewrite Hfails. now exists t1.
    + discriminate.
  - intros py Hpy Htrue Hversion Hrun.
    rewrite (find_py_launcher_python_runs w py v t Hpy Htrue Hversion).
    cbv zeta. rewrite Hrun. cbn. eauto.
  - intros p t'.
    destruct (find_py_launcher_python w (Some v) t) as [[e | py] t1].
    + destruct (called_process_or_not_found e); discriminate.
    + apply negb_true_iff in Hnothing. rewrite Hnothing. discriminate.
Qed.

(** The theorem at work: "python99.99" on a system without launcher,
    version "9.9" under a launcher that does not know it, and version "3.11"
    under a launcher that cannot be executed. *)
Lemma find_python_interpreter_not_found_witness :
  find_python_interpreter Worlds.bare_unix "python99.99" [] =
    (inl (ResolutionFailure (InterpreterResolutionError "PATH" "python99.99")), [])
  /\ (exists t',
        find_python_interpreter Worlds.launcher_without_version "9.9" [] =
          (inl (ResolutionFailure (InterpreterResolutionError "py launcher" "9.9")), t'))
  /\ exists t',
       find_python_interpreter Worlds.unrunnable_launcher "3.11" [] =
         (inl OtherOSError, t').
Proof.
  split; [| split].
  - apply (proj1 (find_python_interpreter_not_found
                    Worlds.bare_unix "python99.99" [] eq_refl eq_refl)).
    reflexivity.
  - apply (proj1 (proj2 (find_python_interpreter_not_found
                           Worlds.launcher_without_version "9.9" [] eq_refl eq_refl))).
    reflexivity.
  - apply (proj1 (proj2 (proj2 (find_python_interpreter_not_found
                                  Worlds.unrunnable_launcher "3.11" []
                                  eq_refl eq_refl)))
             "C:\Windows\py.exe"); reflexivity.
Defined.

(** C1 as stated fails where the launcher is on the search path and cannot
    be executed: the launcher probe finds nothing, the search path holds
    nothing named "3.11", the invocation of the launcher fails, and what is
    raised is the bare [OSError], not a failure with source "py launcher". *)
Lemma unrunnable_launcher_raises_raw_oserror :
  which Worlds.unrunnable_launcher "py" = Some "C:\Windows\py.exe"
  /\ launcher_finds_nothing Worlds.unrunnable_launcher "3.11" [] = true
  /\ which Worlds.unrunnable_launcher "3.11" = None
  /\ spawn Worlds.unrunnable_launcher
       ["C:\Windows\py.exe"; "-3.11"; "-c"; self_report] = inl EOTHER
  /\ find_python_interpreter Worlds.unrunnable_launcher "3.11" [] =
       (inl OtherOSError,
        [Run ["C:\Windows\py.exe"; "-3.11"; "-c"; self_report]])
  /\ is_resolution_failure OtherOSError = false.
Proof. repeat split. Qed.

(** ** C2 and C3: the candidate and the returned path *)

(** The search-path probe, once the launcher probe has returned nothing and
    the path holds [p]: the command that is run is [p'], what the expression
    of line 57 makes of [p]. *)
Lemma find_python_interpreter_on_path
    (w : World) (v : string) (t t1 : trace) (py : option string) (p : string) :
  find_py_launcher_python w (Some v) t = (inr py, t1) ->
  truthy py = false ->
  which w v = Some p ->
  PyStr.truthy p = true ->
  find_python_interpreter w v t =
    match realpath_unless_islink w p t1 with
    | (inl e, t2) => (inl e, t2)
    | (inr p', t2) =>
        let t3 := (t2 ++ [Run [p'; "-c"; self_report]])%list in
        match spawn w [p'; "-c"; self_report] with
        | inl ENOENT =>
            (inl (ResolutionFailure (InterpreterResolutionError "PATH" v)), t3)
        | inl EOTHER => (inl OtherOSError, t3)
        | inr (rc, out) =>
            if Z.eqb rc 0
            then realpath_unless_islink w (PyStr.strip out) t3
            else (inl (ResolutionFailure (InterpreterResolutionError "PATH" v)), t3)
        end
    end.
Proof.
  intros Hl Hpy Hv Hp.
  unfold find_python_interpreter, bind, try_except.
  rewrite Hl, Hpy. simpl. unfold shutil_which, ret at 1. rewrite Hv, Hp. simpl.
  destruct (realpath_unless_islink w p t1) as [[e | p'] t2]; [reflexivity |].
  unfold subprocess_run, emit, bind, raise, ret.
  destruct (spawn w [p'; "-c"; self_report]) as [[ | ] | [rc out]]; simpl;
    try reflexivity.
  destruct (Z.eqb rc 0); reflexivity.
Qed.

(** What [find_python_interpreter] does with a located candidate: the
    expression of line 69. *)
Lemma find_python_interpreter_located
    (w : World) (v : string) (t : trace) (c : string) (t' : trace) :
  located w v t c t' ->
  find_python_interpreter w v t = realpath_unless_islink w c t'.
Proof.
  intros [c1 t1 Hl Hc | py t1 p p' out Hl Hpy Hv Hp Hreal Hrun].
  - unfold find_python_interpreter, bind, try_except.
    rewrite Hl. simpl. rewrite Hc. reflexivity.
  - rewrite (find_python_interpreter_on_path w v t t1 py p Hl Hpy Hv Hp).
    rewrite Hreal. simpl. rewrite Hrun. reflexivity.
Qed.

(** C2. A located candidate that is a symlink is returned as it was found,
    without dereferencing.  At the search-path probe likewise: a symlink
    found on the path is itself the command that is run, and where the
    interpreter behind it reports that same path, the symlink found on the
    path is the returned path. *)
Theorem symlink_candidate_returned_as_found (w : World) (v : string) (t : trace) :
  (forall c t',
      located w v t c t' -> islink w c = true ->
      find_python_interpreter w v t = (inr c, t'))
  /\ (forall py t1 p,
        find_py_launcher_python w (Some v) t = (inr py, t1) ->
        truthy py = false ->
        which w v = Some p -> PyStr.truthy p = true ->
        islink w p = true ->
        exists r,
          find_python_interpreter w v t =
            (r, (t1 ++ [Run [p; "-c"; self_report]])%list)
          /\ forall out,
               spawn w [p; "-c"; self_report] = inr (0%Z, out) ->
               PyStr.strip out = p ->
               r = inr p).
Proof.
  split.
  - intros c t' Hloc Hlink.
    rewrite (find_python_interpreter_located w v t c t' Hloc).
    now apply realpath_unless_islink_link.
  - intros py t1 p Hl Hpy Hv Hp Hlink.
    rewrite (find_python_interpreter_on_path w v t t1 py p Hl Hpy Hv Hp).
    rewrite realpath_unless_islink_link by assumption.
    cbv zeta.
    destruct (spawn w [p; "-c"; self_report]) as [[ | ] | [rc out]] eqn:Hrun.
    + eexists. split; [reflexivity | discriminate].
    + eexists. split; [reflexivity | discriminate].
    + destruct (Z.eqb rc 0) eqn:Hrc.
      * destruct (realpath_unless_islink w (PyStr.strip out)
                    (t1 ++ [Run [p; "-c"; self_report]])%list) as [r t2] eqn:Hfinal.
        pose proof (realpath_unless_islink_trace _ _ _ _ _ Hfinal) as ->.
        exists r. split; [reflexivity |].
        intros out' Hout' Hecho. injection Hout' as _ <-.
        rewrite Hecho in Hfinal.
        rewrite realpath_unless_islink_link in Hfinal by assumption.
        congruence.
      * eexists. split; [reflexivity |].
        intros out' Hout'. injection Hout' as -> _. discriminate.
Qed.

(** The theorem on [/usr/bin/python3], a symlink found on the search path. *)
Lemma symlink_candidate_returned_as_found_witness :
  find_python_interpreter Worlds.symlinked_python "python3" [] =
    (inr "/usr/bin/python3", [Run ["/usr/bin/python3"; "-c"; self_report]])
  /\ exists r,
       find_python_interpreter Worlds.symlinked_python "python3" [] =
         (r, [Run ["/usr/bin/python3"; "-c"; self_report]])
       /\ forall out,
            spawn Worlds.symlinked_python ["/usr/bin/python3"; "-c"; self_report]
              = inr (0%Z, out) ->
            PyStr.strip out = "/usr/bin/python3" ->
            r = inr "/usr/bin/python3".
Proof.
  split.
  - apply (proj1 (symlink_candidate_returned_as_found
                    Worlds.symlinked_python "python3" [])).
    + apply (located_on_path Worlds.symlinked_python "python3" []
               None [] "/usr/bin/python3" "/usr/bin/python3"
               ("/usr/bin/python3" ++ Worlds.nl)); reflexivity.
    + reflexivity.
  - apply (proj2 (symlink_candidate_returned_as_found
                    Worlds.symlinked_python "python3" [])
             None [] "/usr/bin/python3"); reflexivity.
Defined.

(** C3. A located candidate that is not a symlink is returned as its
    canonical path, and the [OSError] of a canonicalization that fails (the
    target does not exist) is raised instead of a path.  At the search-path
    probe likewise: for a regular file found on the path, a canonical path
    that cannot be resolved raises before any command is run. *)
Theorem regular_candidate_returned_canonical (w : World) (v : string) (t : trace) :
  (forall c t',
      located w v t c t' -> islink w c = false ->
      find_python_interpreter w v t =
        match realpath_strict w c with
        | inr q => (inr q, t')
        | inl e => (inl (exn_of_oserror e), t')
        end)
  /\ (forall py t1 p e,
        find_py_launcher_python w (Some v) t = (inr py, t1) ->
        truthy py = false ->
        which w v = Some p -> PyStr.truthy p = true ->
        islink w p = false ->
        realpath_strict w p = inl e ->
        find_python_interpreter w v t = (inl (exn_of_oserror e), t1)).
Proof.
  split.
  - intros c t' Hloc Hlink.
    rewrite (find_python_interpreter_located w v t c t' Hloc).
    rewrite realpath_unless_islink_file by assumption.
    destruct (realpath_strict w c); reflexivity.
  - intros py t1 p e Hl Hpy Hv Hp Hlink Hreal.
    rewrite (find_python_interpreter_on_path w v t t1 py p Hl Hpy Hv Hp).
    rewrite realpath_unless_islink_file by assumption.
    now rewrite Hreal.
Qed.

(** The theorem on [/opt/py/bin/python3.11], a regular file under a
    symlinked directory, and on a file that is gone after it was found. *)
Lemma regular_candidate_returned_canonical_witness :
  find_python_interpreter Worlds.regular_python "python3.11" [] =
    (inr "/opt/python-3.11/bin/python3.11",
     [Run ["/opt/python-3.11/bin/python3.11"; "-c"; self_report]])
  /\ find_python_interpreter Worlds.vanished_python "python3.11" [] =
       (inl FileNotFoundError, []).
Proof.
  split.
  - apply (proj1 (regular_candidate_returned_canonical
                    Worlds.regular_python "python3.11" [])
             "/opt/py/bin/python3.11").
    + apply (located_on_path Worlds.regular_python "python3.11" []
               None [] "/opt/py/bin/python3.11" "/opt/python-3.11/bin/python3.11"
               ("/opt/py/bin/python3.11" ++ Worlds.nl)); reflexivity.
    + reflexivity.
  - apply (proj2 (regular_candidate_returned_canonical
                    Worlds.vanished_python "python3.11" [])
             None [] "/tmp/env/bin/python3.11" ENOENT); reflexivity.
Defined.

(** ** C4: which failures are translated *)

(** C4, as the code has it.  What the two [try] blocks and the test of
    line 54 detect is translated where it is detected into an
    [InterpreterResolutionError] that carries the source and the version: a
    launcher run that is not found or exits with a code other than zero
    (source "py launcher"), a search path that holds nothing under the
    version, and a self-report run that is not found or exits with a code
    other than zero (source "PATH").  What stands outside is not
    translated: an [OSError] other than [FileNotFoundError] raised when the
    launcher or the self-report command is spawned, and the [OSError] of the
    strict canonicalization at line 57 and at line 69, reach the caller as
    they are. *)
Theorem find_python_interpreter_translation (w : World) (v : string) (t : trace) :
  (* translated: the launcher run *)
  (forall py,
      which w "py" = Some py -> PyStr.truthy py = true -> PyStr.truthy v = true ->
      (spawn w [py; version_flag v; "-c"; self_report] = inl ENOENT
       \/ exists rc out,
            spawn w [py; version_flag v; "-c"; self_report] = inr (rc, out)
            /\ rc <> 0%Z) ->
      exists t',
        find_python_interpreter w v t =
          (inl (ResolutionFailure (InterpreterResolutionError "py launcher" v)), t')
        /\ source (InterpreterResolutionError "py launcher" v) = "py launcher"
        /\ version (InterpreterResolutionError "py launcher" v) = v)
  (* translated: nothing on the search path *)
  /\ (forall py t1,
        find_py_launcher_python w (Some v) t = (inr py, t1) ->
        truthy py = false ->
        truthy (which w v) = false ->
        find_python_interpreter w v t =
          (inl (ResolutionFailure (InterpreterResolutionError "PATH" v)), t1)
        /\ source (InterpreterResolutionError "PATH" v) = "PATH"
        /\ version (InterpreterResolutionError "PATH" v) = v)
  (* translated: the self-report run *)
  /\ (forall py t1 p p',
        find_py_launcher_python w (Some v) t = (inr py, t1) ->
        truthy py = false ->
        which w v = Some p -> PyStr.truthy p = true ->
        realpath_unless_islink w p t1 = (inr p', t1) ->
        (spawn w [p'; "-c"; self_report] = inl ENOENT
         \/ exists rc out,
              spawn w [p'; "-c"; self_report] = inr (rc, out) /\ rc <> 0%Z) ->
        find_python_interpreter w v t =
          (inl (ResolutionFailure (InterpreterResolutionError "PATH" v)),
           (t1 ++ [Run [p'; "-c"; self_report]])%list))
  (* not translated: another OSError of the launcher run *)
  /\ (forall py,
        which w "py" = Some py -> PyStr.truthy py = true -> PyStr.truthy v = true ->
        spawn w [py; version_flag v; "-c"; self_report] = inl EOTHER ->
        exists t', find_python_interpreter w v t = (inl OtherOSError, t'))
  (* not translated: another OSError of the self-report run *)
  /\ (forall py t1 p p',
        find_py_launcher_python w (Some v) t = (inr py, t1) ->
        truthy py = false ->
        which w v = Some p -> PyStr.truthy p = true ->
        realpath_unless_islink w p t1 = (inr p', t1) ->
        spawn w [p'; "-c"; self_report] = inl EOTHER ->
        find_python_interpreter w v t =
          (inl OtherOSError, (t1 ++ [Run [p'; "-c"; self_report]])%list))
  (* not translated: the canonicalization of line 57 *)
  /\ (forall py t1 p oe,
        find_py_launcher_python w (Some v) t = (inr py, t1) ->
        truthy py = false ->
        which w v = Some p -> PyStr.truthy p = true ->
        islink w p = false ->
        realpath_strict w p = inl oe ->
        find_python_interpreter w v t = (inl (exn_of_oserror oe), t1))
  (* not translated: the canonicalization of line 69 *)
  /\ (forall c t' oe,
        located w v t c t' ->
        islink w c = false ->
        realpath_strict w c = inl oe ->
        find_python_interpreter w v t = (inl (exn_of_oserror oe), t')).
Proof.
  assert (Hlauncher : forall py,
             which w "py" = Some py -> PyStr.truthy py = true ->
             PyStr.truthy v = true ->
             find_python_interpreter w v t =
               let argv := [py; version_flag v; "-c"; self_report] in
               let t' := (t ++ (if PyStr.startswith v "python"
                                then [Warn launcher_warning] else [])
                            ++ [Run argv])%list in
               match spawn w argv with
               | inl ENOENT =>
                   (inl (ResolutionFailure
                           (InterpreterResolutionError "py launcher" v)), t')
               | inl EOTHER => (inl OtherOSError, t')
               | inr (rc, out) =>
                   if Z.eqb rc 0
                   then find_python_interpreter w v t
                   else (inl (ResolutionFailure
                                (InterpreterResolutionError "py launcher" v)), t')
               end).
  { intros py Hpy Htrue Hversion. cbv zeta.
    destruct (spawn w [py; version_flag v; "-c"; self_report])
      as [[ | ] | [rc out]] eqn:Hrun;
      [| | destruct (Z.eqb rc 0) eqn:Hrc; [reflexivity |]];
      unfold find_python_interpreter, bind, try_except;
      rewrite (find_py_launcher_python_runs w py v t Hpy Htrue Hversion);
      cbv zeta; rewrite Hrun, ?Hrc; reflexivity. }
  repeat apply conj.
  - intros py Hpy Htrue Hversion Hrun.
    rewrite (Hlauncher py Hpy Htrue Hversion). cbv zeta.
    destruct Hrun as [-> | (rc & out & -> & Hrc)]; [eauto |].
    apply Z.eqb_neq in Hrc. rewrite Hrc. eauto.
  - intros py t1 Hl Hpy Hmiss. split; [| split; reflexivity].
    unfold find_python_interpreter, bind, try_except.
    rewrite Hl. simpl. rewrite Hpy. simpl. unfold shutil_which, ret at 1.
    destruct (which w v) as [p |]; [| reflexivity].
    simpl in Hmiss. now rewrite Hmiss.
  - intros py t1 p p' Hl Hpy Hfound Hp Hreal Hrun.
    rewrite (find_python_interpreter_on_path w v t t1 py p Hl Hpy Hfound Hp).
    rewrite Hreal. cbv zeta.
    destruct Hrun as [-> | (rc & out & -> & Hrc)]; [reflexivity |].
    apply Z.eqb_neq in Hrc. now rewrite Hrc.
  - intros py Hpy Htrue Hversion Hrun.
    rewrite (Hlauncher py Hpy Htrue Hversion). cbv zeta. rewrite Hrun. eauto.
  - intros py t1 p p' Hl Hpy Hfound Hp Hreal Hrun.
    rewrite (find_python_interpreter_on_path w v t t1 py p Hl Hpy Hfound Hp).
    rewrite Hreal. cbv zeta. now rewrite Hrun.
  - intros py t1 p oe Hl Hpy Hfound Hp Hlink Hreal.
    rewrite (find_python_interpreter_on_path w v t t1 py p Hl Hpy Hfound Hp).
    rewrite realpath_unless_islink_file by assumption. now rewrite Hreal.
  - intros c t' oe Hloc Hlink Hreal.
    rewrite (find_python_interpreter_located w v t c t' Hloc).
    rewrite realpath_unless_islink_file by assumption. now rewrite Hreal.
Qed.

(** The theorem at work: a launcher that does not know the version, a
    launcher and a command on the path that cannot be executed, a command on
    the path that is gone when its canonical path is asked for, and a
    wrapper that reports an interpreter which does not exist. *)
Lemma find_python_interpreter_translation_witness :
  (exists t',
      find_python_interpreter Worlds.launcher_without_version "9.9" [] =
        (inl (ResolutionFailure (InterpreterResolutionError "py launcher" "9.9")), t')
      /\ source (InterpreterResolutionError "py launcher" "9.9") = "py launcher"
      /\ version (InterpreterResolutionError "py launcher" "9.9") = "9.9")
  /\ (exists t',
        find_python_interpreter Worlds.unrunnable_launcher "3.11" [] =
          (inl OtherOSError, t'))
  /\ find_python_interpreter Worlds.unrunnable_python "python3.11" [] =
       (inl OtherOSError, [Run ["/home/u/bin/python3.11"; "-c"; self_report]])
  /\ find_python_interpreter Worlds.vanished_python "python3.11" [] =
       (inl FileNotFoundError, [])
  /\ find_python_interpreter Worlds.stale_wrapper "python3.11" [] =
       (inl FileNotFoundError,
        [Run ["/home/u/bin/python3.11"; "-c"; self_report]]).
Proof.
  repeat apply conj.
  - apply (proj1 (find_python_interpreter_translation
                    Worlds.launcher_without_version "9.9" [])
             "C:\Windows\py.exe"); try reflexivity.
    right. exists 103%Z, EmptyString. split; [reflexivity | discriminate].
  - apply (proj1 (proj2 (proj2 (proj2 (find_python_interpreter_translation
                                         Worlds.unrunnable_launcher "3.11" []))))
             "C:\Windows\py.exe"); reflexivity.
  - apply (proj1 (proj2 (proj2 (proj2 (proj2 (find_python_interpreter_translation
                                                Worlds.unrunnable_python
                                                "python3.11" [])))))
             None [] "/home/u/bin/python3.11" "/home/u/bin/python3.11");
      reflexivity.
  - apply (proj1 (proj2 (proj2 (proj2 (proj2 (proj2
             (find_python_interpreter_translation
                Worlds.vanished_python "python3.11" []))))))
             None [] "/tmp/env/bin/python3.11" ENOENT); reflexivity.
  - apply (proj2 (proj2 (proj2 (proj2 (proj2 (proj2
             (find_python_interpreter_translation
                Worlds.stale_wrapper "python3.11" []))))))
             "/opt/removed/bin/python3.11" _ ENOENT); [| reflexivity | reflexivity].
    apply (located_on_path Worlds.stale_wrapper "python3.11" []
             None [] "/home/u/bin/python3.11" "/home/u/bin/python3.11"
             ("/opt/removed/bin/python3.11" ++ Worlds.nl)); reflexivity.
Defined.

(** C4 as stated fails: the wrapper found on the path reports an
    interpreter that does not exist, and the [FileNotFoundError] of the
    canonicalization at line 69 reaches the caller as it is; so does the
    [OSError] of a command on the path that cannot be executed. *)
Lemma raw_oserror_reaches_caller :
  find_python_interpreter Worlds.stale_wrapper "python3.11" [] =
    (inl FileNotFoundError, [Run ["/home/u/bin/python3.11"; "-c"; self_report]])
  /\ is_resolution_failure FileNotFoundError = false
  /\ find_python_interpreter Worlds.unrunnable_python "python3.11" [] =
       (inl OtherOSError, [Run ["/home/u/bin/python3.11"; "-c"; self_report]])
  /\ is_resolution_failure OtherOSError = false.
Proof. repeat split. Qed.

(** ** C5, C6 and C9: the default resolver *)

(** Called without a version, the launcher probe returns what
    [shutil.which("py")] returns and runs nothing. *)
Lemma find_py_launcher_python_no_version (w : World) (t : trace) :
  find_py_launcher_python w None t = (inr (which w "py"), t).
Proof.
  unfold find_py_launcher_python, shutil_which, bind, ret.
  destruct (which w "py"); reflexivity.
Qed.

(** C5. Off Windows, the default resolver returns [sys.executable] and
    leaves the trace as it found it: no subprocess is invoked.  This is also
    the value of [DEFAULT_PYTHON] when [PIPX_DEFAULT_PYTHON] is unset or
    empty. *)
Theorem default_off_windows_is_sys_executable (w : World) (t : trace) :
  WINDOWS w = false ->
  _get_sys_executable w t = (inr (sys_executable w), t)
  /\ invocations (snd (_get_sys_executable w t)) = invocations t
  /\ (truthy (env_default_python w) = false ->
       DEFAULT_PYTHON w t = (inr (sys_executable w), t)).
Proof.
  intros Hwin.
  assert (H : _get_sys_executable w t = (inr (sys_executable w), t)).
  { unfold _get_sys_executable. now rewrite Hwin. }
  repeat split.
  - exact H.
  - now rewrite H.
  - intros Henv. unfold DEFAULT_PYTHON. now rewrite Henv.
Qed.

Lemma default_off_windows_is_sys_executable_witness :
  _get_sys_executable Worlds.bare_unix [] = (inr "/usr/bin/python3.11", [])
  /\ DEFAULT_PYTHON Worlds.bare_unix [] = (inr "/usr/bin/python3.11", []).
Proof.
  destruct (default_off_windows_is_sys_executable Worlds.bare_unix [] eq_refl)
    as (H1 & _ & H3).
  split; [exact H1 | exact (H3 eq_refl)].
Defined.

(** C6. On Windows without [venv], a candidate (the launcher, or else
    [python] on the search path) whose path contains "WindowsApps" and whose
    [-V] run exits with a code other than zero, or prints nothing but
    whitespace, makes the resolver raise [PipxError("No suitable Python
    found")]. *)
Theorem store_stub_is_rejected
    (w : World) (t : trace) (python : string) (rc : Z) (out : string) :
  WINDOWS w = true ->
  venv_importable w = false ->
  (if truthy (which w "py") then which w "py" else which w "python") = Some python ->
  PyStr.contains "WindowsApps" python = true ->
  spawn w [python; "-V"] = inr (rc, out) ->
  rc <> 0%Z \/ PyStr.bytes_strip out = EmptyString ->
  _get_sys_executable w t =
    (inl (PipxError "No suitable Python found"), (t ++ [Run [python; "-V"]])%list).
Proof.
  intros Hwin Hvenv Hcand Hstub Hrun Hbad.
  unfold _get_sys_executable. rewrite Hwin.
  unfold _find_default_windows_python, has_venv, bind, ret at 1.
  rewrite Hvenv, find_py_launcher_python_no_version.
  assert (Hpython :
            (if truthy (which w "py") then ret (which w "py")
             else shutil_which w "python") t = (inr (Some python), t)).
  { unfold shutil_which, ret. destruct (truthy (which w "py")); now rewrite Hcand. }
  rewrite Hpython, Hstub. simpl.
  unfold subprocess_run, emit, bind, raise, ret. rewrite Hrun. simpl.
  destruct (Z.eqb_spec rc 0) as [-> | Hrc]; simpl.
  - destruct Hbad as [Hne | Hempty]; [contradiction |]. now rewrite Hempty.
  - reflexivity.
Qed.

(** The theorem on the stub that exits with code 9009, and on a stub that
    exits with code 0 after printing a blank line. *)
Lemma store_stub_is_rejected_witness :
  _get_sys_executable Worlds.store_stub [] =
    (inl (PipxError "No suitable Python found"),
     [Run ["C:\Users\u\AppData\Local\Microsoft\WindowsApps\python.exe"; "-V"]])
  /\ _get_sys_executable Worlds.silent_store_stub [] =
       (inl (PipxError "No suitable Python found"),
        [Run ["C:\Users\u\AppData\Local\Microsoft\WindowsApps\python.exe"; "-V"]]).
Proof.
  split.
  - apply (store_stub_is_rejected Worlds.store_stub [] _ 9009%Z EmptyString);
      try reflexivity.
    left. discriminate.
  - apply (store_stub_is_rejected Worlds.silent_store_stub [] _ 0%Z
             (" " ++ Worlds.nl)); try reflexivity.
    right. reflexivity.
Defined.

(** C9. On Windows without [venv], with the launcher on the search path at
    a path that does not contain "WindowsApps", the default resolver returns
    the path of the launcher itself: the launcher probe, called without a
    version, returns [shutil.which("py")], and nothing is run. *)
Theorem default_on_windows_is_launcher_path (w : World) (t : trace) (py : string) :
  WINDOWS w = true ->
  venv_importable w = false ->
  which w "py" = Some py ->
  PyStr.truthy py = true ->
  PyStr.contains "WindowsApps" py = false ->
  find_py_launcher_python w None t = (inr (Some py), t)
  /\ _get_sys_executable w t = (inr py, t).
Proof.
  intros Hwin Hvenv Hpy Htrue Hstore.
  rewrite find_py_launcher_python_no_version, Hpy. split; [reflexivity |].
  unfold _get_sys_executable. rewrite Hwin.
  unfold _find_default_windows_python, has_venv, bind, ret at 1.
  rewrite Hvenv, find_py_launcher_python_no_version, Hpy. simpl.
  rewrite Htrue. unfold ret at 1. now rewrite Hstore.
Qed.

Lemma default_on_windows_is_launcher_path_witness :
  find_py_launcher_python Worlds.embedded_with_launcher None [] =
    (inr (Some "C:\Windows\py.exe"), [])
  /\ _get_sys_executable Worlds.embedded_with_launcher [] =
       (inr "C:\Windows\py.exe", []).
Proof.
  apply (default_on_windows_is_launcher_path Worlds.embedded_with_launcher []);
    reflexivity.
Defined.

(** ** C7: the flag handed to the launcher *)

(** A version that starts with "python", under a launcher: a warning is
    logged and the launcher is run with the flag made of "-" and what
    [lstrip("python")] leaves of the rest of the version. *)
Lemma find_py_launcher_python_python_prefix
    (w : World) (py rest : string) (t : trace) :
  which w "py" = Some py ->
  PyStr.truthy py = true ->
  exists r,
    find_py_launcher_python w (Some ("python" ++ rest)) t =
      (r, (t ++ [Warn ("Removing `python` from the start of the version, "
                       ++ "as pylauncher just expects the semantic version")%string;
                 Run [py; ("-" ++ PyStr.lstrip_chars rest "python")%string; "-c";
                      self_report]])%list).
Proof.
  intros Hpy Htrue.
  unfold find_py_launcher_python, shutil_which, bind, ret at 1.
  rewrite Hpy, Htrue.
  change (PyStr.truthy ("python" ++ rest)) with true.
  change (PyStr.startswith ("python" ++ rest) "python")
    with (PyStr.startswith rest EmptyString).
  replace (PyStr.startswith rest EmptyString) with true by now destruct rest.
  change (PyStr.lstrip_chars ("python" ++ rest) "python")
    with (PyStr.lstrip_chars rest "python").
  cbn [andb]. unfold logging_warn, subprocess_run, emit, bind, raise, ret.
  rewrite <- app_assoc. cbn [app].
  destruct (spawn w _) as [oe | [rc out]]; [eauto |].
  destruct (true && negb (Z.eqb rc 0)); eauto.
Qed.

(** [lstrip("python")] leaves alone a string that does not begin with one
    of the letters p, y, t, h, o, n. *)
Lemma lstrip_chars_stable (s chars : string) :
  match s with
  | EmptyString => true
  | String c _ => negb (PyStr.mem c chars)
  end = true ->
  PyStr.lstrip_chars s chars = s.
Proof.
  destruct s as [| c s]; [reflexivity |].
  simpl. intros H. apply negb_true_iff in H. now rewrite H.
Qed.

(** C7, at "pythonnightly".  The launcher knows the tag [nightly]; the
    version is "python" followed by "nightly"; the launcher is run with the
    flag "-ightly", because [lstrip("python")] also drops the "n" that
    follows the prefix, and exits with code 103. *)
Theorem launcher_flag_for_pythonnightly :
  find_py_launcher_python Worlds.embedded_with_launcher (Some "pythonnightly") [] =
    (inl (CalledProcessError 103
            ["C:\Windows\py.exe"; "-ightly"; "-c"; self_report]),
     [Warn ("Removing `python` from the start of the version, "
            ++ "as pylauncher just expects the semantic version");
      Run ["C:\Windows\py.exe"; "-ightly"; "-c"; self_report]])
  /\ "pythonnightly" = "python" ++ "nightly"
  /\ PyStr.lstrip_chars "pythonnightly" "python" = "ightly"
  /\ spawn Worlds.embedded_with_launcher
       ["C:\Windows\py.exe"; "-" ++ "nightly"; "-c"; self_report]
     = inr (0%Z, "C:\Python-nightly\python.exe" ++ Worlds.nl).
Proof. repeat split. Qed.

(** ** C8: where the canonicalization step is *)

(** Every path that [find_python_interpreter] returns is what the
    expression of line 69 makes of a located candidate. *)
Lemma find_python_interpreter_returns
    (w : World) (v : string) (t t' : trace) (r : string) :
  find_python_interpreter w v t = (inr r, t') ->
  exists c, located w v t c t' /\ realpath_unless_islink w c t' = (inr r, t').
Proof.
  intros H.
  destruct (find_py_launcher_python w (Some v) t) as [[el | py] t1] eqn:Hl.
  - exfalso. revert H. unfold find_python_interpreter, bind, try_except.
    rewrite Hl. destruct (called_process_or_not_found el); discriminate.
  - destruct (truthy py) eqn:Hpy.
    + destruct py as [c |]; [| discriminate].
      assert (Hloc : located w v t c t1) by (now apply located_by_launcher).
      rewrite (find_python_interpreter_located w v t c t1 Hloc) in H.
      pose proof (realpath_unless_islink_trace _ _ _ _ _ H) as ->.
      now exists c.
    + destruct (which w v) as [p |] eqn:Hv.
      * destruct (PyStr.truthy p) eqn:Hp.
        -- pose proof (find_python_interpreter_on_path w v t t1 py p Hl Hpy Hv Hp)
             as Heq.
           destruct (realpath_unless_islink w p t1) as [[e1 | p'] t2] eqn:Hreal;
             [congruence |].
           pose proof (realpath_unless_islink_trace _ _ _ _ _ Hreal) as ->.
           cbv zeta in Heq.
           destruct (spawn w [p'; "-c"; self_report])
             as [[ | ] | [rc out]] eqn:Hrun; try congruence.
           destruct (Z.eqb_spec rc 0) as [-> | Hrc]; [| congruence].
           assert (Hloc : located w v t (PyStr.strip out)
                            (t1 ++ [Run [p'; "-c"; self_report]])%list)
             by (now apply (located_on_path w v t py t1 p p' out)).
           rewrite H in Heq. symmetry in Heq.
           pose proof (realpath_unless_islink_trace _ _ _ _ _ Heq) as ->.
           now exists (PyStr.strip out).
        -- exfalso. revert H. unfold find_python_interpreter, bind, try_except.
           rewrite Hl. simpl. rewrite Hpy. simpl. unfold shutil_which, ret at 1.
           rewrite Hv, Hp. discriminate.
      * rewrite (find_python_interpreter_cases w v t Hv), Hl, Hpy in H.
        discriminate.
Qed.

(** C8, as the code has it.  A path returned by [find_python_interpreter],
    whether the launcher probe or the search-path probe located it, has gone
    through the canonicalization step: it is the located candidate itself
    when that is a symlink, and its canonical path otherwise.  The default
    resolver, the override entry point and [DEFAULT_PYTHON] have no such
    step: what they do is the same whatever the links of the filesystem
    are. *)
Theorem canonicalization_only_in_find_python_interpreter
    (w : World) (v : string) (t : trace) :
  (forall r t',
      find_python_interpreter w v t = (inr r, t') ->
      exists c,
        located w v t c t'
        /\ ((islink w c = true /\ r = c)
            \/ (islink w c = false /\ realpath_strict w c = inr r)))
  /\ (forall links canonical,
        _get_sys_executable (with_links w links canonical) t
          = _get_sys_executable w t)
  /\ (forall links canonical env_python,
        _get_absolute_python_interpreter (with_links w links canonical) env_python t
          = _get_absolute_python_interpreter w env_python t)
  /\ (forall links canonical,
        DEFAULT_PYTHON (with_links w links canonical) t = DEFAULT_PYTHON w t).
Proof.
  repeat split.
  intros r t' H.
  destruct (find_python_interpreter_returns w v t t' r H) as (c & Hloc & Hcanon).
  exists c. split; [assumption |].
  destruct (islink w c) eqn:Hlink.
  - rewrite realpath_unless_islink_link in Hcanon by assumption.
    left. split; congruence.
  - rewrite realpath_unless_islink_file in Hcanon by assumption.
    right. split; [reflexivity |].
    destruct (realpath_strict w c); congruence.
Qed.

(** The theorem on the launcher route: [py -3.11] reports a regular file. *)
Lemma canonicalization_only_in_find_python_interpreter_witness :
  exists c,
    located Worlds.embedded_with_launcher "3.11" [] c
      [Run ["C:\Windows\py.exe"; "-3.11"; "-c"; self_report]]
    /\ ((islink Worlds.embedded_with_launcher c = true
         /\ "C:\Python311\python.exe" = c)
        \/ (islink Worlds.embedded_with_launcher c = false
            /\ realpath_strict Worlds.embedded_with_launcher c
               = inr "C:\Python311\python.exe")).
Proof.
  apply (proj1 (canonicalization_only_in_find_python_interpreter
                  Worlds.embedded_with_launcher "3.11" [])).
  reflexivity.
Defined.

(** C8 as stated fails for the default resolver and for the override entry
    point: both return [/opt/py/bin/python3.11], a regular file under a
    symlinked directory, where the canonicalization step would give
    [/opt/python-3.11/bin/python3.11]. *)
Lemma default_and_override_skip_canonicalization :
  _get_sys_executable Worlds.regular_python [] = (inr "/opt/py/bin/python3.11", [])
  /\ _get_absolute_python_interpreter Worlds.regular_python "python3.11" []
     = (inr "/opt/py/bin/python3.11", [])
  /\ DEFAULT_PYTHON Worlds.regular_python [] = (inr "/opt/py/bin/python3.11", [])
  /\ realpath_unless_islink Worlds.regular_python "/opt/py/bin/python3.11" []
     = (inr "/opt/python-3.11/bin/python3.11", []).
Proof. repeat split. Qed.

(** ** C10: the hints of the message *)

Lemma append_assoc (a b c : string) : (a ++ b) ++ c = a ++ (b ++ c).
Proof. induction a as [| x a IH]; simpl; [reflexivity | now rewrite IH]. Qed.

Lemma append_empty_r (a : string) : a ++ EmptyString = a.
Proof. induction a as [| x a IH]; simpl; [reflexivity | now rewrite IH]. Qed.

Lemma startswith_app (s p r : string) :
  PyStr.startswith s p = true -> PyStr.startswith (s ++ r) p = true.
Proof.
  revert p. induction s as [| x s IH]; intros [| c p]; simpl.
  - intros _. now destruct r.
  - discriminate.
  - reflexivity.
  - intros H. apply andb_prop in H. destruct H as [-> H]. now apply IH.
Qed.

Lemma contains_cons (sub : string) (x : ascii) (s : string) :
  PyStr.contains sub (String x s)
    = PyStr.startswith (String x s) sub || PyStr.contains sub s.
Proof. reflexivity. Qed.

Lemma contains_app_l (sub a b : string) :
  PyStr.contains sub a = true -> PyStr.contains sub (a ++ b) = true.
Proof.
  induction a as [| x a IH].
  - destruct sub; [| discriminate]. intros _. now destruct b.
  - change (String x a ++ b) with (String x (a ++ b)).
    rewrite !contains_cons. intros H. apply orb_prop in H.
    destruct H as [H | H].
    + apply (startswith_app _ _ b) in H.
      change (String x a ++ b) with (String x (a ++ b)) in H.
      now rewrite H.
    + rewrite (IH H). apply orb_true_r.
Qed.

Lemma contains_app_r (sub a b : string) :
  PyStr.contains sub b = true -> PyStr.contains sub (a ++ b) = true.
Proof.
  intros H. induction a as [| x a IH]; [assumption |].
  change (String x a ++ b) with (String x (a ++ b)).
  rewrite contains_cons, IH. apply orb_true_r.
Qed.

(** A pattern without the character [q] cannot run across a [q]. *)
Lemma startswith_separator (q : ascii) (p a b : string) :
  PyStr.mem q p = false ->
  PyStr.startswith (a ++ String q b) p = PyStr.startswith a p.
Proof.
  revert p. induction a as [| x a IH]; intros [| c p] Hq; simpl; try reflexivity.
  - simpl in Hq. apply orb_false_elim in Hq. destruct Hq as [Hq _].
    rewrite Ascii.eqb_sym in Hq. now rewrite Hq.
  - simpl in Hq. apply orb_false_elim in Hq. destruct Hq as [_ Hq].
    now rewrite IH.
Qed.

Lemma contains_separator (q : ascii) (sub a b : string) :
  PyStr.mem q sub = false ->
  PyStr.contains sub (a ++ String q b)
    = PyStr.contains sub a || PyStr.contains sub b.
Proof.
  intros Hq. induction a as [| x a IH].
  - change (EmptyString ++ String q b) with (String q b).
    rewrite contains_cons.
    change (String q b) with (EmptyString ++ String q b) at 1.
    rewrite startswith_separator by assumption.
    simpl. now rewrite orb_false_r.
  - change (String x a ++ String q b) with (String x (a ++ String q b)).
    rewrite !contains_cons, IH.
    change (String x (a ++ String q b)) with (String x a ++ String q b).
    rewrite startswith_separator by assumption.
    now rewrite orb_assoc.
Qed.

(** The message for source "PATH": the version between quotes, then the
    two hints, each under its test. *)
Lemma message_PATH (v : string) :
  message (InterpreterResolutionError "PATH" v) =
    message_head
    ++ String quote
         (v ++ String quote
                 (path_tail
                  ++ (if PyStr.contains "/" v then path_hint else EmptyString)
                  ++ (if negb (PyStr.contains "python" v)
                         && negb (PyStr.contains "/" v)
                      then launcher_hint else EmptyString))).
Proof.
  unfold InterpreterResolutionError, message.
  change (String.eqb "PATH" "py launcher") with false.
  change (String.eqb "PATH" "PATH") with true.
  cbv iota.
  destruct (PyStr.contains "/" v), (PyStr.contains "python" v); cbn [negb andb];
    rewrite ?append_assoc, ?append_empty_r; reflexivity.
Qed.

(** The message for source "py launcher". *)
Lemma message_launcher (v : string) :
  message (InterpreterResolutionError "py launcher" v) =
    message_head ++ String quote (v ++ String quote launcher_tail).
Proof.
  unfold InterpreterResolutionError, message.
  change (String.eqb "py launcher" "py launcher") with true.
  change (String.eqb "py launcher" "PATH") with false.
  cbv iota. rewrite ?append_assoc. reflexivity.
Qed.

(** Where a hint can occur in a message: in the version, or in what
    follows it. *)
Lemma contains_hint_in_message (hint v rest : string) :
  PyStr.mem quote hint = false ->
  PyStr.contains hint message_head = false ->
  PyStr.contains hint v = false ->
  PyStr.contains hint (message_head ++ String quote (v ++ String quote rest))
    = PyStr.contains hint rest.
Proof.
  intros Hq Hhead Hv.
  rewrite !contains_separator by assumption.
  now rewrite Hhead, Hv.
Qed.

(** C10. The message of an [InterpreterResolutionError] is a fixed head,
    the version between quotes, and a body.  With source "PATH" the body
    contains the looks-like-a-path hint exactly when the version contains
    "/", and the looks-like-a-launcher-tag hint exactly when the version
    contains neither "python" nor "/".  With source "py launcher" the body
    points to [py --list] and contains neither hint. *)
Theorem message_hints (v : string) :
  let path_body :=
    path_tail
    ++ (if PyStr.contains "/" v then path_hint else EmptyString)
    ++ (if negb (PyStr.contains "python" v) && negb (PyStr.contains "/" v)
        then launcher_hint else EmptyString) in
  message (InterpreterResolutionError "PATH" v)
    = message_head ++ String quote (v ++ String quote path_body)
  /\ PyStr.contains path_hint path_body = PyStr.contains "/" v
  /\ PyStr.contains launcher_hint path_body
     = negb (PyStr.contains "python" v) && negb (PyStr.contains "/" v)
  /\ message (InterpreterResolutionError "py launcher" v)
     = message_head ++ String quote (v ++ String quote launcher_tail)
  /\ PyStr.contains "`py --list`" launcher_tail = true
  /\ PyStr.contains path_hint launcher_tail = false
  /\ PyStr.contains launcher_hint launcher_tail = false.
Proof.
  cbv zeta. rewrite <- message_PATH, <- message_launcher.
  repeat split;
    destruct (PyStr.contains "/" v), (PyStr.contains "python" v); reflexivity.
Qed.

(** * Further properties of the module *)

(** ** The launcher probe *)

(** X1. The launcher probe runs the launcher exactly when a launcher is on
    the search path and a version that is not empty is asked for, and then
    once: with the path found for [py], the version flag, and the
    self-report script.  Otherwise it returns what [shutil.which("py")]
    returns and leaves the trace alone. *)
Theorem launcher_probe_runs_once_or_never
    (w : World) (o : option string) (t : trace) :
  exists r d,
    find_py_launcher_python w o t = (r, (t ++ d)%list)
    /\ (truthy (which w "py") && truthy o = false ->
         d = [] /\ r = inr (which w "py"))
    /\ (truthy (which w "py") && truthy o = true ->
         exists py v,
           which w "py" = Some py /\ o = Some v
           /\ invocations d = [[py; version_flag v; "-c"; self_report]]).
Proof.
  destruct (truthy (which w "py") && truthy o) eqn:Hguard.
  - apply andb_prop in Hguard. destruct Hguard as [Hpy Hv].
    destruct (which w "py") as [py |] eqn:Hwhich; [| discriminate].
    destruct o as [v |]; [| discriminate]. simpl in Hpy, Hv.
    rewrite (find_py_launcher_python_runs w py v t Hwhich Hpy Hv). cbv zeta.
    set (argv := [py; version_flag v; "-c"; self_report]).
    set (d := ((if PyStr.startswith v "python"
                then [Warn launcher_warning] else []) ++ [Run argv])%list).
    assert (Hd : invocations d = [argv]).
    { subst d. now destruct (PyStr.startswith v "python"). }
    destruct (spawn w argv) as [oe | [rc out]];
      [| destruct (Z.eqb rc 0)];
      eexists; exists d; (split; [reflexivity |]);
      (split; [discriminate |]); intros _; exists py, v; auto.
  - rewrite (find_py_launcher_python_skips w o t Hguard).
    exists (inr (which w "py")), []. rewrite app_nil_r.
    split; [reflexivity |]. split; [auto | discriminate].
Qed.

(** X2. A version that is not empty and does not start with "python" goes
    to the launcher as it is, behind a dash, and nothing is logged. *)
Theorem launcher_flag_of_plain_version
    (w : World) (py v : string) (t : trace) :
  which w "py" = Some py ->
  PyStr.truthy py = true ->
  PyStr.truthy v = true ->
  PyStr.startswith v "python" = false ->
  exists r,
    find_py_launcher_python w (Some v) t =
      (r, (t ++ [Run [py; "-" ++ v; "-c"; self_report]%string])%list).
Proof.
  intros Hpy Htrue Hv Hprefix.
  rewrite (find_py_launcher_python_runs w py v t Hpy Htrue Hv). cbv zeta.
  unfold version_flag. rewrite Hprefix. cbn [app].
  destruct (spawn w _) as [oe | [rc out]]; [| destruct (Z.eqb rc 0)]; eauto.
Qed.

Lemma launcher_flag_of_plain_version_witness :
  exists r,
    find_py_launcher_python Worlds.embedded_with_launcher (Some "3.11") [] =
      (r, [Run ["C:\Windows\py.exe"; "-3.11"; "-c"; self_report]]).
Proof.
  apply (launcher_flag_of_plain_version Worlds.embedded_with_launcher
           "C:\Windows\py.exe" "3.11" []); reflexivity.
Defined.

Lemma lstrip_chars_length (s chars : string) :
  String.length (PyStr.lstrip_chars s chars) <= String.length s.
Proof.
  induction s as [| c s IH]; simpl; [lia |].
  destruct (PyStr.mem c chars); simpl; lia.
Qed.

(** [lstrip] gives back its argument only when there is nothing to drop. *)
Lemma lstrip_chars_fixed (s chars : string) :
  PyStr.lstrip_chars s chars = s ->
  match s with
  | EmptyString => true
  | String c _ => negb (PyStr.mem c chars)
  end = true.
Proof.
  destruct s as [| c s]; [reflexivity |]. simpl.
  destruct (PyStr.mem c chars); [| reflexivity].
  intros H. pose proof (lstrip_chars_length s chars) as Hlen.
  rewrite H in Hlen. simpl in Hlen. lia.
Qed.

(** X3. For a version made of "python" and a rest, the launcher is run with
    the flag made of a dash and that rest exactly when the rest is empty or
    does not begin with one of the letters p, y, t, h, o, n. *)
Theorem python_prefix_removed_exactly_iff
    (w : World) (py rest : string) (t : trace) :
  which w "py" = Some py ->
  PyStr.truthy py = true ->
  (exists r,
      find_py_launcher_python w (Some ("python" ++ rest)) t =
        (r, (t ++ [Warn launcher_warning;
                   Run [py; ("-" ++ rest)%string; "-c"; self_report]])%list))
  <-> match rest with
      | EmptyString => true
      | String c _ => negb (PyStr.mem c "python")
      end = true.
Proof.
  intros Hpy Htrue.
  destruct (find_py_launcher_python_python_prefix w py rest t Hpy Htrue)
    as [r0 Hrun].
  split.
  - intros [r Hr]. rewrite Hrun in Hr.
    injection Hr as _ Htrace. apply app_inv_head in Htrace.
    injection Htrace as Hflag.
    now apply lstrip_chars_fixed.
  - intros Hhead. exists r0.
    now rewrite Hrun, (lstrip_chars_stable rest "python" Hhead).
Qed.

Lemma python_prefix_removed_exactly_iff_witness :
  exists r,
    find_py_launcher_python Worlds.embedded_with_launcher (Some "python3.11") [] =
      (r, [Warn launcher_warning;
           Run ["C:\Windows\py.exe"; "-3.11"; "-c"; self_report]]).
Proof.
  apply (proj2 (python_prefix_removed_exactly_iff Worlds.embedded_with_launcher
                  "C:\Windows\py.exe" "3.11" [] eq_refl eq_refl)).
  reflexivity.
Defined.

(** ** [find_python_interpreter] at its edges *)

(** X4. Asked for the empty version where a launcher is on the search path,
    [find_python_interpreter] runs nothing and returns the path of the
    launcher itself, as the canonicalization step leaves it. *)
Theorem empty_version_gives_launcher_path (w : World) (py : string) (t : trace) :
  which w "py" = Some py ->
  PyStr.truthy py = true ->
  find_python_interpreter w EmptyString t = realpath_unless_islink w py t
  /\ snd (find_python_interpreter w EmptyString t) = t.
Proof.
  intros Hpy Htrue.
  assert (Hloc : located w EmptyString t py t).
  { apply located_by_launcher; [| assumption].
    rewrite find_py_launcher_python_skips; [now rewrite Hpy |].
    apply andb_false_r. }
  rewrite (find_python_interpreter_located w EmptyString t py t Hloc).
  split; [reflexivity |].
  destruct (realpath_unless_islink w py t) as [r t'] eqn:Hcanon.
  exact (realpath_unless_islink_trace _ _ _ _ _ Hcanon).
Qed.

Lemma empty_version_gives_launcher_path_witness :
  find_python_interpreter Worlds.embedded_with_launcher EmptyString [] =
    (inr "C:\Windows\py.exe", []).
Proof.
  apply (proj1 (empty_version_gives_launcher_path Worlds.embedded_with_launcher
                  "C:\Windows\py.exe" [] eq_refl eq_refl)).
Defined.

(** X5. A launcher that exits with code 0 and prints nothing but whitespace
    has found nothing: the search path is tried next, and when it holds
    nothing under the version the failure carries source "PATH".  For a
    version without "python" and without "/" its message then holds the
    hint that [py] was not found, although the launcher was run. *)
Theorem blank_launcher_answer_falls_back_to_path
    (w : World) (py v out : string) (t : trace) :
  which w "py" = Some py ->
  PyStr.truthy py = true ->
  PyStr.truthy v = true ->
  spawn w [py; version_flag v; "-c"; self_report] = inr (0%Z, out) ->
  PyStr.strip out = EmptyString ->
  which w v = None ->
  exists t',
    find_python_interpreter w v t =
      (inl (ResolutionFailure (InterpreterResolutionError "PATH" v)), t')
    /\ invocations t'
       = (invocations t ++ [[py; version_flag v; "-c"; self_report]])%list
    /\ (PyStr.contains "python" v = false ->
        PyStr.contains "/" v = false ->
        PyStr.contains launcher_hint
          (message (InterpreterResolutionError "PATH" v)) = true).
Proof.
  intros Hpy Htrue Hv Hrun Hblank Hmiss.
  rewrite (find_python_interpreter_cases w v t Hmiss).
  rewrite (find_py_launcher_python_runs w py v t Hpy Htrue Hv). cbv zeta.
  rewrite Hrun. cbn [Z.eqb]. rewrite Hblank. cbn [truthy PyStr.truthy].
  eexists. split; [reflexivity |]. split.
  - rewrite !invocations_app.
    destruct (PyStr.startswith v "python"); reflexivity.
  - intros Hpython Hslash. rewrite message_PATH, Hpython, Hslash.
    cbn [negb andb]. apply contains_app_r.
    change (String quote (v ++ String quote (path_tail ++ EmptyString ++ launcher_hint)))
      with (String quote v ++ String quote (path_tail ++ EmptyString ++ launcher_hint)).
    apply contains_app_r. reflexivity.
Qed.

Lemma blank_launcher_answer_falls_back_to_path_witness :
  exists t',
    find_python_interpreter Worlds.blank_launcher "3.11" [] =
      (inl (ResolutionFailure (InterpreterResolutionError "PATH" "3.11")), t')
    /\ invocations t'
       = ([] ++ [["C:\Windows\py.exe"; version_flag "3.11"; "-c"; self_report]])%list
    /\ (PyStr.contains "python" "3.11" = false ->
        PyStr.contains "/" "3.11" = false ->
        PyStr.contains launcher_hint
          (message (InterpreterResolutionError "PATH" "3.11")) = true).
Proof.
  apply (blank_launcher_answer_falls_back_to_path Worlds.blank_launcher
           "C:\Windows\py.exe" "3.11" Worlds.nl []); reflexivity.
Defined.

(** X6. A command found on the search path that exits with code 0 and
    prints nothing but whitespace is not turned down: the empty string goes
    through the canonicalization step, and where that resolves (to the
    working directory) the result is returned as the interpreter. *)
Theorem blank_self_report_is_not_rejected
    (w : World) (v : string) (t t1 : trace) (py : option string)
    (p p' out q : string) :
  find_py_launcher_python w (Some v) t = (inr py, t1) ->
  truthy py = false ->
  which w v = Some p ->
  PyStr.truthy p = true ->
  realpath_unless_islink w p t1 = (inr p', t1) ->
  spawn w [p'; "-c"; self_report] = inr (0%Z, out) ->
  PyStr.strip out = EmptyString ->
  islink w EmptyString = false ->
  realpath_strict w EmptyString = inr q ->
  find_python_interpreter w v t =
    (inr q, (t1 ++ [Run [p'; "-c"; self_report]])%list).
Proof.
  intros Hl Hpy Hv Hp Hreal Hrun Hblank Hlink Hcwd.
  pose proof (located_on_path w v t py t1 p p' out Hl Hpy Hv Hp Hreal Hrun) as Hloc.
  rewrite (find_python_interpreter_located _ _ _ _ _ Hloc), Hblank.
  rewrite realpath_unless_islink_file by assumption. now rewrite Hcwd.
Qed.

Lemma blank_self_report_is_not_rejected_witness :
  find_python_interpreter Worlds.blank_wrapper "python3.11" [] =
    (inr "/home/u", [Run ["/home/u/bin/python3.11"; "-c"; self_report]]).
Proof.
  apply (blank_self_report_is_not_rejected Worlds.blank_wrapper "python3.11"
           [] [] None "/home/u/bin/python3.11" "/home/u/bin/python3.11"
           EmptyString "/home/u"); reflexivity.
Defined.




(** X8. A launcher whose run fails ends the resolution: the failure carries
    source "py launcher" whatever the search path holds under the version,
    and the trace is the one the launcher probe left, so that nothing found
    on the search path is run. *)
Theorem failed_launcher_is_final (w : World) (v : string) (t : trace) :
  launcher_invocation_fails w v t = true ->
  find_python_interpreter w v t =
    (inl (ResolutionFailure (InterpreterResolutionError "py launcher" v)),
     snd (find_py_launcher_python w (Some v) t)).
Proof.
  unfold launcher_invocation_fails. intros H.
  apply andb_prop in H. destruct H as [_ H].
  unfold find_python_interpreter, bind, try_except.
  destruct (find_py_launcher_python w (Some v) t) as [[e | py] t1];
    [| discriminate].
  now rewrite H.
Qed.

Lemma failed_launcher_is_final_witness :
  find_python_interpreter Worlds.embedded_with_launcher "python" [] =
    (inl (ResolutionFailure (InterpreterResolutionError "py launcher" "python")),
     snd (find_py_launcher_python Worlds.embedded_with_launcher (Some "python") [])).
Proof.
  apply (failed_launcher_is_final Worlds.embedded_with_launcher "python" []).
  reflexivity.
Defined.

(** ** The default resolver *)

(** The default resolver on Windows without [venv], by its candidate. *)
Lemma default_on_windows_without_venv (w : World) (t : trace) :
  WINDOWS w = true ->
  venv_importable w = false ->
  _get_sys_executable w t =
    match default_windows_candidate w with
    | None => (inl (PipxError "No suitable Python found"), t)
    | Some python =>
        if PyStr.contains "WindowsApps" python then
          let t' := (t ++ [Run [python; "-V"]])%list in
          match spawn w [python; "-V"] with
          | inl e => (inl (exn_of_oserror e), t')
          | inr (rc, out) =>
              if Z.eqb rc 0 && PyStr.truthy (PyStr.bytes_strip out)
              then (inr python, t')
              else (inl (PipxError "No suitable Python found"), t')
          end
        else (inr python, t)
    end.
Proof.
  intros Hwin Hvenv.
  unfold _get_sys_executable. rewrite Hwin.
  unfold _find_default_windows_python, has_venv, bind, ret at 1.
  rewrite Hvenv, find_py_launcher_python_no_version.
  assert (Hpython :
            (if truthy (which w "py") then ret (which w "py")
             else shutil_which w "python") t
            = (inr (default_windows_candidate w), t)).
  { unfold default_windows_candidate, shutil_which, ret.
    now destruct (truthy (which w "py")). }
  rewrite Hpython.
  destruct (default_windows_candidate w) as [python |]; [| reflexivity].
  destruct (PyStr.contains "WindowsApps" python); [| reflexivity].
  cbn [negb]. unfold subprocess_run, emit, bind, raise, ret.
  destruct (spawn w [python; "-V"]) as [oe | [rc out]]; [reflexivity |].
  cbn [andb returncode stdout].
  destruct (Z.eqb rc 0); cbn [negb andb]; [| reflexivity].
  now destruct (PyStr.truthy (PyStr.bytes_strip out)).
Qed.

(** X9. The default resolver fails only on Windows without [venv], and then
    with [PipxError("No suitable Python found")], or with the [OSError] of
    a [-V] run that could not be spawned on a candidate whose path contains
    "WindowsApps". *)
Theorem default_resolver_failures (w : World) (t t' : trace) (e : exn) :
  _get_sys_executable w t = (inl e, t') ->
  WINDOWS w = true /\ venv_importable w = false
  /\ (e = PipxError "No suitable Python found"
      \/ exists python oe,
           default_windows_candidate w = Some python
           /\ PyStr.contains "WindowsApps" python = true
           /\ spawn w [python; "-V"] = inl oe
           /\ e = exn_of_oserror oe).
Proof.
  destruct (WINDOWS w) eqn:Hwin.
  2: { unfold _get_sys_executable. rewrite Hwin. discriminate. }
  destruct (venv_importable w) eqn:Hvenv.
  { unfold _get_sys_executable. rewrite Hwin.
    unfold _find_default_windows_python, has_venv, bind, ret at 1.
    rewrite Hvenv. discriminate. }
  rewrite (default_on_windows_without_venv w t Hwin Hvenv).
  intros H. split; [reflexivity |]. split; [reflexivity |].
  destruct (default_windows_candidate w) as [python |];
    [| injection H as <- _; now left].
  destruct (PyStr.contains "WindowsApps" python) eqn:Hstore; [| discriminate].
  cbv zeta in H.
  destruct (spawn w [python; "-V"]) as [oe | [rc out]] eqn:Hrun.
  - injection H as <- _. right. now exists python, oe.
  - destruct (Z.eqb rc 0 && PyStr.truthy (PyStr.bytes_strip out));
      [discriminate |].
    injection H as <- _. now left.
Qed.

Lemma default_resolver_failures_witness :
  WINDOWS Worlds.bare_windows = true
  /\ venv_importable Worlds.bare_windows = false
  /\ (PipxError "No suitable Python found" = PipxError "No suitable Python found"
      \/ exists python oe,
           default_windows_candidate Worlds.bare_windows = Some python
           /\ PyStr.contains "WindowsApps" python = true
           /\ spawn Worlds.bare_windows [python; "-V"] = inl oe
           /\ PipxError "No suitable Python found" = exn_of_oserror oe).
Proof.
  apply (default_resolver_failures Worlds.bare_windows [] []). reflexivity.
Defined.

(** X10. On Windows without [venv], a candidate whose path contains
    "WindowsApps" and whose [-V] run could be spawned is returned exactly
    when that run exits with code 0 and prints something other than
    whitespace. *)
Theorem store_python_accepted_iff
    (w : World) (t : trace) (python : string) (rc : Z) (out : string) :
  WINDOWS w = true ->
  venv_importable w = false ->
  default_windows_candidate w = Some python ->
  PyStr.contains "WindowsApps" python = true ->
  spawn w [python; "-V"] = inr (rc, out) ->
  _get_sys_executable w t = (inr python, (t ++ [Run [python; "-V"]])%list)
  <-> rc = 0%Z /\ PyStr.bytes_strip out <> EmptyString.
Proof.
  intros Hwin Hvenv Hcand Hstore Hrun.
  rewrite (default_on_windows_without_venv w t Hwin Hvenv), Hcand, Hstore.
  cbv zeta. rewrite Hrun.
  destruct (Z.eqb_spec rc 0) as [-> | Hrc]; cbn [andb].
  - destruct (PyStr.bytes_strip out) as [| c s]; cbn [PyStr.truthy].
    + split; [discriminate | intros [_ H]; now contradiction H].
    + split; [intros _; split; [reflexivity | discriminate] | reflexivity].
  - split; [discriminate | intros [H _]; contradiction].
Qed.

Lemma store_python_accepted_iff_witness :
  _get_sys_executable Worlds.store_python [] =
    (inr "C:\Users\u\AppData\Local\Microsoft\WindowsApps\python.exe",
     [Run ["C:\Users\u\AppData\Local\Microsoft\WindowsApps\python.exe"; "-V"]]).
Proof.
  apply (proj2 (store_python_accepted_iff Worlds.store_python []
                  "C:\Users\u\AppData\Local\Microsoft\WindowsApps\python.exe"
                  0%Z ("Python 3.11.4" ++ Worlds.nl)
                  eq_refl eq_refl eq_refl eq_refl eq_refl)).
  split; [reflexivity | discriminate].
Defined.

(** X11. What the default resolver returns is [sys.executable], the path
    found for [py], or the path found for [python]; and the one command it
    may have run on the way is that returned path with [-V]. *)
Theorem default_resolver_result (w : World) (t t' : trace) (r : string) :
  _get_sys_executable w t = (inr r, t') ->
  (r = sys_executable w \/ which w "py" = Some r \/ which w "python" = Some r)
  /\ (t' = t \/ t' = (t ++ [Run [r; "-V"]])%list).
Proof.
  destruct (WINDOWS w) eqn:Hwin.
  2: { unfold _get_sys_executable. rewrite Hwin. intros H.
       injection H as <- <-. auto. }
  destruct (venv_importable w) eqn:Hvenv.
  { unfold _get_sys_executable. rewrite Hwin.
    unfold _find_default_windows_python, has_venv, bind, ret at 1.
    rewrite Hvenv. intros H. injection H as <- <-. auto. }
  rewrite (default_on_windows_without_venv w t Hwin Hvenv).
  assert (Hcand : forall python,
             default_windows_candidate w = Some python ->
             which w "py" = Some python \/ which w "python" = Some python).
  { unfold default_windows_candidate.
    destruct (truthy (which w "py")); auto. }
  destruct (default_windows_candidate w) as [python |]; [| discriminate].
  specialize (Hcand python eq_refl).
  destruct (PyStr.contains "WindowsApps" python).
  - cbv zeta. destruct (spawn w [python; "-V"]) as [oe | [rc out]];
      [discriminate |].
    destruct (Z.eqb rc 0 && PyStr.truthy (PyStr.bytes_strip out));
      [| discriminate].
    intros H. injection H as <- <-. tauto.
  - intros H. injection H as <- <-. tauto.
Qed.

Lemma default_resolver_result_witness :
  ("C:\Windows\py.exe" = sys_executable Worlds.embedded_with_launcher
   \/ which Worlds.embedded_with_launcher "py" = Some "C:\Windows\py.exe"
   \/ which Worlds.embedded_with_launcher "python" = Some "C:\Windows\py.exe")
  /\ (@nil event = [] \/ [] = ([] ++ [Run ["C:\Windows\py.exe"; "-V"]])%list).
Proof.
  apply (default_resolver_result Worlds.embedded_with_launcher [] []).
  reflexivity.
Defined.

(** X12. On Windows without [venv] and without launcher the candidate is
    [python] on the search path: with none there the resolver raises
    [PipxError("No suitable Python found")], and one whose path has no
    "WindowsApps" in it is returned; either way nothing is run. *)
Theorem default_on_windows_without_launcher (w : World) (t : trace) :
  WINDOWS w = true ->
  venv_importable w = false ->
  which w "py" = None ->
  (which w "python" = None ->
     _get_sys_executable w t = (inl (PipxError "No suitable Python found"), t))
  /\ (forall python,
        which w "python" = Some python ->
        PyStr.contains "WindowsApps" python = false ->
        _get_sys_executable w t = (inr python, t)).
Proof.
  intros Hwin Hvenv Hpy.
  rewrite (default_on_windows_without_venv w t Hwin Hvenv).
  unfold default_windows_candidate. rewrite Hpy. cbn [truthy].
  split.
  - now intros ->.
  - intros python -> Hstore. now rewrite Hstore.
Qed.

Lemma default_on_windows_without_launcher_witness :
  _get_sys_executable Worlds.bare_windows [] =
    (inl (PipxError "No suitable Python found"), []).
Proof.
  apply (proj1 (default_on_windows_without_launcher Worlds.bare_windows []
                  eq_refl eq_refl eq_refl)).
  reflexivity.
Defined.

(** X13. With [PIPX_DEFAULT_PYTHON] set to a string that is not empty,
    [DEFAULT_PYTHON] is decided by the search path alone: the path found
    for that string, or a [PipxError] that names the string when nothing is
    found.  The platform, [venv] and [sys.executable] are not looked at and
    nothing is run. *)
Theorem default_python_override (w : World) (env_python : string) (t : trace) :
  environ_get w "PIPX_DEFAULT_PYTHON" = Some env_python ->
  PyStr.truthy env_python = true ->
  (which w env_python = None ->
     DEFAULT_PYTHON w t =
       (inl (PipxError ("Default python interpreter '" ++ env_python
                        ++ "' is invalid.")), t))
  /\ (forall p,
        which w env_python = Some p -> PyStr.truthy p = true ->
        DEFAULT_PYTHON w t = (inr p, t))
  /\ (forall venv windows executable,
        DEFAULT_PYTHON
          {| which := which w; islink := islink w;
             realpath_strict := realpath_strict w; spawn := spawn w;
             venv_importable := venv; sys_executable := executable;
             WINDOWS := windows; environ_get := environ_get w |} t
        = DEFAULT_PYTHON w t).
Proof.
  intros Henv Htrue.
  unfold DEFAULT_PYTHON, env_default_python. cbn [environ_get].
  rewrite Henv. cbn [truthy]. rewrite Htrue. cbn [negb].
  split; [| split].
  - intros Hmiss.
    unfold _get_absolute_python_interpreter, shutil_which, bind, ret at 1.
    now rewrite Hmiss.
  - intros p Hfound Hp.
    unfold _get_absolute_python_interpreter, shutil_which, bind, ret at 1.
    rewrite Hfound. cbn [truthy]. now rewrite Hp.
  - reflexivity.
Qed.

Lemma default_python_override_witness :
  DEFAULT_PYTHON Worlds.bad_override [] =
    (inl (PipxError "Default python interpreter '/bad/path' is invalid."), []).
Proof.
  apply (proj1 (default_python_override Worlds.bad_override "/bad/path" []
                  eq_refl eq_refl)).
  reflexivity.
Defined.

(** ** The message of an [InterpreterResolutionError] *)

Lemma startswith_append (p r : string) : PyStr.startswith (p ++ r) p = true.
Proof.
  induction p as [| c p IH]; simpl; [now destruct r |].
  now rewrite Ascii.eqb_refl.
Qed.

Lemma contains_startswith (sub s : string) :
  PyStr.startswith s sub = true -> PyStr.contains sub s = true.
Proof.
  intros H. destruct s as [| c s].
  - destruct sub; [reflexivity | discriminate].
  - rewrite contains_cons. now rewrite H.
Qed.

(** The message begins the same way whatever the source is. *)
Lemma message_begins (src v : string) :
  exists rest,
    message (InterpreterResolutionError src v) =
      (("No executable for the provided Python version '" ++ v ++ "'")
       ++ (" found in " ++ src ++ ".")) ++ rest.
Proof.
  unfold InterpreterResolutionError, message.
  set (base := "No executable for the provided Python version '" ++ v
               ++ "' found in " ++ src ++ "."
               ++ " Please make sure the provided version is ").
  assert (Hbase : base =
            (("No executable for the provided Python version '" ++ v ++ "'")
             ++ (" found in " ++ src ++ "."))
            ++ " Please make sure the provided version is ").
  { subst base. rewrite !append_assoc. reflexivity. }
  assert (Happend : forall x y z : string,
             (exists rest, x = y ++ rest) -> exists rest, x ++ z = y ++ rest).
  { intros x y z [rest ->]. eexists. now rewrite append_assoc. }
  assert (Hif : forall (b : bool) (x y z : string),
             (exists rest, x = y ++ rest) ->
             exists rest, (if b then x ++ z else x) = y ++ rest).
  { intros b x y z H. destruct b; [now apply Happend | assumption]. }
  assert (Hstart : exists rest,
             (if String.eqb src "py launcher"
              then base ++ "listed when running `py --list`."
              else base)
             = (("No executable for the provided Python version '" ++ v ++ "'")
                ++ (" found in " ++ src ++ ".")) ++ rest).
  { apply Hif. now exists " Please make sure the provided version is ". }
  destruct (String.eqb src "PATH"); [| exact Hstart].
  now apply Hif, Hif, Happend.
Qed.

(** X14. Whatever the source and the version are, the message of an
    [InterpreterResolutionError] begins with "No executable for the
    provided Python version", then the version between quotes, then
    "found in", the source and a full stop. *)
Theorem message_names_version_and_source (src v : string) :
  PyStr.startswith (message (InterpreterResolutionError src v))
    ("No executable for the provided Python version '" ++ v ++ "'"
     ++ " found in " ++ src ++ ".") = true
  /\ PyStr.contains ("'" ++ v ++ "'")
       (message (InterpreterResolutionError src v)) = true
  /\ PyStr.contains (" found in " ++ src ++ ".")
       (message (InterpreterResolutionError src v)) = true.
Proof.
  destruct (message_begins src v) as [rest ->].
  repeat split.
  - assert (Heq : "No executable for the provided Python version '" ++ v ++ "'"
                  ++ " found in " ++ src ++ "."
                  = ("No executable for the provided Python version '" ++ v ++ "'")
                    ++ (" found in " ++ src ++ "."))
      by (now rewrite !append_assoc).
    rewrite Heq. apply startswith_append.
  - do 2 apply contains_app_l.
    change ("No executable for the provided Python version '" ++ v ++ "'")
      with ("No executable for the provided Python version "
            ++ ("'" ++ v ++ "'")).
    apply contains_app_r, contains_startswith.
    rewrite <- (append_empty_r ("'" ++ v ++ "'")) at 1.
    apply startswith_append.
  - apply contains_app_l, contains_app_r, contains_startswith.
    rewrite <- (append_empty_r (" found in " ++ src ++ ".")) at 1.
    apply startswith_append.
Qed.

(** X15. For a version that does not itself contain the text of the hint,
    the whole message can be searched: with source "PATH" it contains the
    looks-like-a-path hint exactly when the version contains "/", and the
    looks-like-a-launcher-tag hint exactly when the version contains neither
    "python" nor "/"; with source "py launcher" the message contains neither
    hint.  With source "py launcher" the message points to [py --list],
    whatever the version. *)
Theorem hints_of_resolution_error (v : string) :
  (PyStr.contains path_hint v = false ->
     PyStr.contains path_hint (message (InterpreterResolutionError "PATH" v))
       = PyStr.contains "/" v
     /\ PyStr.contains path_hint
          (message (InterpreterResolutionError "py launcher" v)) = false)
  /\ (PyStr.contains launcher_hint v = false ->
       PyStr.contains launcher_hint (message (InterpreterResolutionError "PATH" v))
         = negb (PyStr.contains "python" v) && negb (PyStr.contains "/" v)
       /\ PyStr.contains launcher_hint
            (message (InterpreterResolutionError "py launcher" v)) = false)
  /\ PyStr.contains "`py --list`"
       (message (InterpreterResolutionError "py launcher" v)) = true.
Proof.
  rewrite message_PATH, message_launcher.
  repeat split.
  - rewrite contains_hint_in_message by (assumption || reflexivity).
    destruct (PyStr.contains "/" v), (PyStr.contains "python" v); reflexivity.
  - now rewrite contains_hint_in_message by (assumption || reflexivity).
  - rewrite contains_hint_in_message by (assumption || reflexivity).
    destruct (PyStr.contains "/" v), (PyStr.contains "python" v); reflexivity.
  - now rewrite contains_hint_in_message by (assumption || reflexivity).
  - apply contains_app_r.
    change (String quote (v ++ String quote launcher_tail))
      with (String quote v ++ String quote launcher_tail).
    apply contains_app_r. reflexivity.
Qed.

(** The theorem on "python99.99" (neither hint), "./python" (the path hint)
    and "3.11" (the launcher hint). *)
Lemma hints_of_resolution_error_witness :
  (PyStr.contains path_hint
     (message (InterpreterResolutionError "PATH" "./python")) = true
   /\ PyStr.contains path_hint
        (message (InterpreterResolutionError "PATH" "python99.99")) = false)
  /\ PyStr.contains launcher_hint
       (message (InterpreterResolutionError "PATH" "3.11")) = true.
Proof.
  split; [split |].
  - apply (proj1 (proj1 (hints_of_resolution_error "./python") eq_refl)).
  - apply (proj1 (proj1 (hints_of_resolution_error "python99.99") eq_refl)).
  - apply (proj1 (proj1 (proj2 (hints_of_resolution_error "3.11")) eq_refl)).
Defined.
